(** * User API: registration, login, profile and the bearer-token gate

    A shallow embedding of the user subsystem of the REST service:

    - [repositories/user.repository.js]  ([mapRow], [findByEmail], [findById],
      [createUser]) over the [users] table reached through [query];
    - [models/user.model.js]             (class [User]);
    - [services/user.service.js]         ([registerUser], [loginUser],
      [getProfile]);
    - [controllers/user.controller.js]   ([register], [login], [me]);
    - [middlewares/auth.middleware.js]   ([authMiddleware]);
    - [routes/user.routes.js]            (the protected route [GET /me]);
    - the category repository, model, service and controller.

    The asynchronous functions are written in a state-and-exception monad over
    a [World] (table contents, clock, entropy, the requests of other clients
    that interleave at I/O points, and a trace of the calls made).  The
    third-party packages [bcrypt] and [jsonwebtoken] are parameters of the
    development; PostgreSQL is modelled as one table. *)

From Stdlib Require Import ZArith List String Ascii Bool Lia DecimalString.
Import ListNotations.

Local Open Scope string_scope.
Local Open Scope Z_scope.

Set Implicit Arguments.
Set Warnings "-register-all".

(* ------------------------------------------------------------------------- *)
(** ** JavaScript values used by the code *)

Module Js.

(** An [Error] object as far as the code reads it: [message], the optional
    [statusCode] set by the services, and the optional [code] that the
    PostgreSQL driver sets to the SQLSTATE. *)
Record Error : Type := mkError {
  message : string;
  statusCode : option Z;
  code : option string
}.

(** [new Error(msg)] followed by [error.statusCode = n]. *)
Definition httpError (msg : string) (n : Z) : Error :=
  {| message := msg; statusCode := Some n; code := None |}.

(** Truthiness of a string-or-undefined value: [undefined] and [""] are
    falsy. *)
Definition truthy (v : option string) : bool :=
  match v with
  | Some s => negb (s =? "")%string
  | None => false
  end.

(** [v || d] where [v] is a string or [undefined]. *)
Definition orString (v : option string) (d : string) : string :=
  match v with
  | Some s => if (s =? "")%string then d else s
  | None => d
  end.

(** [v || d] where [v] is a number or [undefined]: [0] is falsy. *)
Definition orNumber (v : option Z) (d : Z) : Z :=
  match v with
  | Some n => if n =? 0 then d else n
  | None => d
  end.

(** [s.split(" ")]: cut at every single space; the result is never empty. *)
Fixpoint split (s : string) : list string :=
  match s with
  | EmptyString => [EmptyString]
  | String c r =>
      if Ascii.eqb c " "%char then EmptyString :: split r
      else match split r with
           | h :: t => String c h :: t
           | [] => [String c EmptyString]
           end
  end.

(** [parts.join(" ")]. *)
Fixpoint join (parts : list string) : string :=
  match parts with
  | [] => EmptyString
  | [p] => p
  | p :: rest => p ++ String " "%char (join rest)
  end.

(** Does the string contain a space? *)
Fixpoint hasSpace (s : string) : bool :=
  match s with
  | EmptyString => false
  | String c r => Ascii.eqb c " "%char || hasSpace r
  end.

(** JSON documents written by [res.json].  A [Date] is represented by its
    epoch value. *)
Inductive Json : Type :=
| JNum (n : Z)
| JStr (s : string)
| JObj (fields : list (string * Json)).

(** Keys of the top level of an object. *)
Definition keys (j : Json) : list string :=
  match j with
  | JObj fields => map fst fields
  | _ => []
  end.

(** Field lookup, [j[k]]. *)
Definition field (k : string) (j : Json) : option Json :=
  match j with
  | JObj fields =>
      match find (fun kv => (fst kv =? k)%string) fields with
      | Some kv => Some (snd kv)
      | None => None
      end
  | _ => None
  end.

(** Does key [k] occur at any depth of the document? *)
Fixpoint mentionsKey (k : string) (j : Json) : bool :=
  match j with
  | JObj fields =>
      (fix go (l : list (string * Json)) : bool :=
         match l with
         | [] => false
         | (k', v) :: l' => (k' =? k)%string || mentionsKey k v || go l'
         end) fields
  | _ => false
  end.

End Js.

(** An HTTP response: [res.status(status).json(body)]. *)
Record Response : Type := mkResponse {
  status : Z;
  body : Js.Json
}.

Definition messageBody (msg : string) : Js.Json :=
  Js.JObj [("message", Js.JStr msg)].

(* ------------------------------------------------------------------------- *)
(** ** Outcomes and the world the handlers run in *)

(** An [async] body either returns or throws. *)
Inductive Outcome (A : Type) : Type :=
| Return (a : A)
| Throw (e : Js.Error).

Arguments Return {A} a.
Arguments Throw {A} e.

(** A row of the [users] table, with the column names of the SQL text. *)
Record Row : Type := mkRow {
  id : Z;
  name : string;
  email : string;
  password_hash : string;
  created_at : Z
}.

(** The three statements the repository sends. *)
Inductive Sql : Type :=
| SelectByEmail (e : string)
| SelectById (i : option Z)
| InsertUser (n e h : string).

(** The claims object passed to [jwt.sign]. *)
Record Claims : Type := mkClaims {
  claim_sub : Z;
  claim_email : string
}.

(** Calls to the outside, in the order they are made. *)
Inductive Event : Type :=
| EvQuery (q : Sql)
| EvHash (password : string) (rounds : Z)
| EvCompare (password hash : string)
| EvSign (c : Claims) (secret : option string) (expiresIn : string)
| EvVerify (token : string) (secret : option string).

(** A request of another client that reaches the table while this one is
    waiting for I/O. *)
Inductive Txn : Type :=
| OtherInsert (n e h : string).

Record World : Type := mkWorld {
  users : list Row;          (* contents of the table, oldest first *)
  nextId : Z;                (* the serial behind the id column *)
  clock : Z;                 (* Date.now(), milliseconds *)
  entropy : N;               (* state of the random source bcrypt salts come from *)
  others : list (list Txn);  (* what other clients do at each I/O point *)
  trace : list Event         (* calls made so far, latest first *)
}.

Definition M (A : Type) : Type := World -> Outcome A * World.

Definition ret {A} (a : A) : M A := fun w => (Return a, w).

Definition throw {A} (e : Js.Error) : M A := fun w => (Throw e, w).

Definition bind {A B} (m : M A) (k : A -> M B) : M B :=
  fun w =>
    match m w with
    | (Return a, w') => k a w'
    | (Throw e, w') => (Throw e, w')
    end.

(** [try { m } catch (error) { h error }]. *)
Definition tryCatch {A} (m : M A) (h : Js.Error -> M A) : M A :=
  fun w =>
    match m w with
    | (Return a, w') => (Return a, w')
    | (Throw e, w') => h e w'
    end.

Notation "x <- m ;; k" := (bind m (fun x => k))
  (at level 61, m at next level, right associativity).
Notation "m ;;; k" := (bind m (fun _ => k))
  (at level 61, right associativity).

Definition logEvent (ev : Event) : M unit :=
  fun w => (Return tt,
            {| users := users w; nextId := nextId w; clock := clock w;
               entropy := entropy w; others := others w;
               trace := ev :: trace w |}).

(* ------------------------------------------------------------------------- *)
(** ** The [users] table *)

Record QueryResult : Type := mkQueryResult {
  rows : list Row;
  rowCount : nat
}.

(** The driver's error for SQLSTATE 23505; it carries no [statusCode]. *)
Definition uniqueViolation : Js.Error :=
  {| Js.message := "duplicate key value violates unique constraint users_email_key";
     Js.statusCode := None;
     Js.code := Some "23505" |}.

Definition emailOf (e : string) (r : Row) : bool := (email r =? e)%string.

Definition idOf (i : option Z) (r : Row) : bool :=
  match i with
  | Some n => id r =? n
  | None => false
  end.

(** Modelled from the spec: the table behind [query], which is not part of the
    sources.  Lookups return the matching rows; the insert assigns the id and
    the creation time and fails with the duplicate-key error when the email
    is already present. *)
Definition execSql (q : Sql) (w : World) : Outcome QueryResult * World :=
  match q with
  | SelectByEmail e =>
      let rs := filter (emailOf e) (users w) in
      (Return {| rows := rs; rowCount := List.length rs |}, w)
  | SelectById i =>
      let rs := filter (idOf i) (users w) in
      (Return {| rows := rs; rowCount := List.length rs |}, w)
  | InsertUser n e h =>
      if existsb (emailOf e) (users w) then (Throw uniqueViolation, w)
      else
        let r := {| id := nextId w; name := n; email := e;
                    password_hash := h; created_at := clock w |} in
        (Return {| rows := [r]; rowCount := 1 |},
         {| users := (users w ++ [r])%list; nextId := nextId w + 1; clock := clock w;
            entropy := entropy w; others := others w; trace := trace w |})
  end.

Definition applyTxn (w : World) (t : Txn) : World :=
  match t with
  | OtherInsert n e h => snd (execSql (InsertUser n e h) w)
  end.

(** Other clients run while this request waits: the next batch of their
    requests reaches the table. *)
Definition interleave : M unit :=
  fun w =>
    match others w with
    | [] => (Return tt, w)
    | batch :: rest =>
        (Return tt,
         fold_left applyTxn batch
           {| users := users w; nextId := nextId w; clock := clock w;
              entropy := entropy w; others := rest; trace := trace w |})
    end.

(** [config/database.js]: [query(text, params)], awaited by the caller. *)
Definition query (q : Sql) : M QueryResult :=
  interleave ;;; logEvent (EvQuery q) ;;; execSql q.

(** The world once the other clients' next batch has reached the table. *)
Definition waited (w : World) : World := snd (interleave w).

(** The world with one more call on the trace. *)
Definition logged (ev : Event) (w : World) : World := snd (logEvent ev w).

(* ------------------------------------------------------------------------- *)
(** ** Objects passed between the layers *)

(** The object built by [mapRow] and the instances of class [User]
    ([models/user.model.js]) have the same five fields. *)
Module User.

Record t : Type := mk {
  id : Z;
  name : string;
  email : string;
  passwordHash : string;
  createdAt : Z
}.

(** [new User({ id, name, email, passwordHash, createdAt })]. *)
Definition new (o : t) : t :=
  {| id := id o; name := name o; email := email o;
     passwordHash := passwordHash o; createdAt := createdAt o |}.

End User.

(** [req.user], set by the middleware from the token's payload; a field the
    payload lacks is [undefined]. *)
Module ReqUser.

Record t : Type := mk {
  id : option Z;
  email : option string
}.

End ReqUser.

(** [process.env]. *)
Module ProcessEnv.

Record t : Type := mk {
  JWT_SECRET : option string;
  JWT_EXPIRES_IN : option string
}.

End ProcessEnv.

(** The [bcrypt] package: [hash(data, rounds)] draws its salt from the random
    source, [compare(data, encrypted)] answers a boolean. *)
Module Bcrypt.

Record Lib : Type := mkLib {
  hash : string -> Z -> N -> string;
  compare : string -> string -> bool
}.

End Bcrypt.

(** The [jsonwebtoken] package: [sign(payload, secret, { expiresIn })] and
    [verify(token, secret)], both reading the clock, both able to throw. *)
Module Jwt.

Record Payload : Type := mkPayload {
  sub : option Z;
  email : option string;
  iat : Z;
  exp : Z
}.

Record Lib : Type := mkLib {
  sign : Claims -> option string -> string -> Z -> Outcome string;
  verify : string -> option string -> Z -> Outcome Payload;
  timespan : string -> option Z
}.

(** What the package documents, as far as the handlers rely on it: a token
    is a non-empty string without spaces; verified with the key it was
    signed with, before it expires, it yields the signed claims, the issue
    time in seconds and the expiry [iat + timespan expiresIn]; and ["1h"] is
    3600 seconds. *)
Record Contract (lib : Lib) : Prop := mkContract {
  token_shape : forall c k ttl now t,
    sign lib c (Some k) ttl now = Return t ->
    t <> EmptyString /\ Js.hasSpace t = false;
  sign_verify : forall c k ttl span now later t,
    sign lib c (Some k) ttl now = Return t ->
    timespan lib ttl = Some span ->
    now <= later -> later / 1000 < now / 1000 + span ->
    verify lib t (Some k) later =
      Return {| sub := Some (claim_sub c); email := Some (claim_email c);
                iat := now / 1000; exp := now / 1000 + span |};
  one_hour : timespan lib "1h" = Some 3600
}.

End Jwt.

(** What the middleware does with the request. *)
Inductive GateResult : Type :=
| Responded (r : Response)
| Next (user : ReqUser.t).

(** Request bodies after [express.json()]: each field a string or absent. *)
Record RegisterBody : Type := mkRegisterBody {
  body_name : option string;
  body_email : option string;
  body_password : option string
}.

Record LoginResult : Type := mkLoginResult {
  token : string;
  user : User.t
}.

(* ------------------------------------------------------------------------- *)
(** ** The program *)

Section Program.

Variable bcrypt : Bcrypt.Lib.
Variable jwt : Jwt.Lib.
Variable env : ProcessEnv.t.

(** [await bcrypt.hash(data, rounds)]. *)
Definition bcrypt_hash (data : string) (rounds : Z) : M string :=
  interleave ;;; logEvent (EvHash data rounds) ;;;
  fun w =>
    (Return (Bcrypt.hash bcrypt data rounds (entropy w)),
     {| users := users w; nextId := nextId w; clock := clock w;
        entropy := N.succ (entropy w); others := others w;
        trace := trace w |}).

(** [await bcrypt.compare(data, encrypted)]. *)
Definition bcrypt_compare (data encrypted : string) : M bool :=
  interleave ;;; logEvent (EvCompare data encrypted) ;;;
  ret (Bcrypt.compare bcrypt data encrypted).

(** [jwt.sign(payload, secret, { expiresIn })]. *)
Definition jwt_sign (c : Claims) (secret : option string) (expiresIn : string)
  : M string :=
  logEvent (EvSign c secret expiresIn) ;;;
  fun w => (Jwt.sign jwt c secret expiresIn (clock w), w).

(** [jwt.verify(token, secret)]. *)
Definition jwt_verify (t : string) (secret : option string) : M Jwt.Payload :=
  logEvent (EvVerify t secret) ;;;
  fun w => (Jwt.verify jwt t secret (clock w), w).

(** *** repositories/user.repository.js *)

Definition mapRow (row : Row) : User.t :=
  {| User.id := id row;
     User.name := name row;
     User.email := email row;
     User.passwordHash := password_hash row;
     User.createdAt := created_at row |}.

(** Reading [rows[0]] of an empty result and then a column of it is a
    [TypeError]. *)
Definition typeError : Js.Error :=
  {| Js.message := "Cannot read properties of undefined";
     Js.statusCode := None; Js.code := None |}.

Definition firstRow (result : QueryResult) : M User.t :=
  match rows result with
  | row :: _ => ret (mapRow row)
  | [] => throw typeError
  end.

Definition findByEmail (e : string) : M (option User.t) :=
  result <- query (SelectByEmail e) ;;
  if Nat.eqb (rowCount result) 0 then ret None
  else u <- firstRow result ;; ret (Some u).

Definition findById (i : option Z) : M (option User.t) :=
  result <- query (SelectById i) ;;
  if Nat.eqb (rowCount result) 0 then ret None
  else u <- firstRow result ;; ret (Some u).

Definition createUser (n e passwordHash : string) : M User.t :=
  result <- query (InsertUser n e passwordHash) ;;
  firstRow result.

(** *** services/user.service.js *)

Definition JWT_EXPIRES_IN : string :=
  Js.orString (ProcessEnv.JWT_EXPIRES_IN env) "1h".

Definition emailTaken : Js.Error :=
  Js.httpError "El email ya esta registrado" 409.

Definition invalidCredentials : Js.Error :=
  Js.httpError "Credenciales invalidas" 401.

Definition userNotFound : Js.Error :=
  Js.httpError "Usuario no encontrado" 404.

Definition registerUser (n e password : string) : M User.t :=
  existing <- findByEmail e ;;
  match existing with
  | Some _ => throw emailTaken
  | None =>
      passwordHash <- bcrypt_hash password 10 ;;
      u <- createUser n e passwordHash ;;
      ret (User.new u)
  end.

Definition loginUser (e password : string) : M LoginResult :=
  found <- findByEmail e ;;
  match found with
  | None => throw invalidCredentials
  | Some u =>
      passwordMatch <- bcrypt_compare password (User.passwordHash u) ;;
      if negb passwordMatch then throw invalidCredentials
      else
        t <- jwt_sign {| claim_sub := User.id u; claim_email := User.email u |}
               (ProcessEnv.JWT_SECRET env) JWT_EXPIRES_IN ;;
        ret {| token := t; user := User.new u |}
  end.

Definition getProfile (userId : option Z) : M User.t :=
  found <- findById userId ;;
  match found with
  | None => throw userNotFound
  | Some u => ret (User.new u)
  end.

(** *** controllers/user.controller.js *)

Definition missingData : Response :=
  {| status := 400; body := messageBody "Faltan datos requeridos" |}.

(** The [catch (error)] block shared by the three handlers. *)
Definition errorResponse (error : Js.Error) : Response :=
  {| status := Js.orNumber (Js.statusCode error) 500;
     body := messageBody (Js.message error) |}.

Definition str (v : option string) : string := Js.orString v "".

Definition register (b : RegisterBody) : M Response :=
  tryCatch
    (if negb (Js.truthy (body_name b)) || negb (Js.truthy (body_email b))
        || negb (Js.truthy (body_password b))
     then ret missingData
     else
       u <- registerUser (str (body_name b)) (str (body_email b))
              (str (body_password b)) ;;
       ret {| status := 201;
              body := Js.JObj [("id", Js.JNum (User.id u));
                               ("name", Js.JStr (User.name u));
                               ("email", Js.JStr (User.email u));
                               ("createdAt", Js.JNum (User.createdAt u))] |})
    (fun error => ret (errorResponse error)).

Definition login (e password : option string) : M Response :=
  tryCatch
    (if negb (Js.truthy e) || negb (Js.truthy password)
     then ret missingData
     else
       r <- loginUser (str e) (str password) ;;
       ret {| status := 200;
              body := Js.JObj [("token", Js.JStr (token r));
                               ("user",
                                Js.JObj [("id", Js.JNum (User.id (user r)));
                                         ("name", Js.JStr (User.name (user r)));
                                         ("email", Js.JStr (User.email (user r)))])] |})
    (fun error => ret (errorResponse error)).

Definition me (requser : ReqUser.t) : M Response :=
  tryCatch
    (u <- getProfile (ReqUser.id requser) ;;
     ret {| status := 200;
            body := Js.JObj [("id", Js.JNum (User.id u));
                             ("name", Js.JStr (User.name u));
                             ("email", Js.JStr (User.email u));
                             ("createdAt", Js.JNum (User.createdAt u))] |})
    (fun error => ret (errorResponse error)).

(** *** middlewares/auth.middleware.js *)

Definition noAutorizado : Response :=
  {| status := 401; body := messageBody "No autorizado" |}.

Definition tokenInvalido : Response :=
  {| status := 401; body := messageBody "Token invalido" |}.

(** [scheme !== "Bearer"], where [scheme] is the first element of the split
    (always present). *)
Definition schemeIsBearer (scheme : option string) : bool :=
  match scheme with
  | Some s => (s =? "Bearer")%string
  | None => false
  end.

Definition authMiddleware (authorization : option string) : M GateResult :=
  let authHeader := Js.orString authorization "" in
  let parts := Js.split authHeader in
  let scheme := nth_error parts 0 in
  let tok := nth_error parts 1 in
  if negb (schemeIsBearer scheme) || negb (Js.truthy tok)
  then ret (Responded noAutorizado)
  else
    tryCatch
      (payload <- jwt_verify (str tok) (ProcessEnv.JWT_SECRET env) ;;
       ret (Next {| ReqUser.id := Jwt.sub payload;
                    ReqUser.email := Jwt.email payload |}))
      (fun _ => ret (Responded tokenInvalido)).

End Program.

(* ------------------------------------------------------------------------- *)
(** ** Vocabulary of the statements about the gate *)

(** The headers the gate is to turn away before looking at the token: no
    header, a first space-separated part other than the literal [Bearer], or
    no non-empty value after it. *)
Definition malformedHeader (authorization : option string) : Prop :=
  match authorization with
  | None => True
  | Some h =>
      hd EmptyString (Js.split h) <> "Bearer"
      \/ nth 1 (Js.split h) EmptyString = EmptyString
  end.

(** The second space-separated part of the header, the candidate token. *)
Definition bearerToken (authorization : option string) : string :=
  match authorization with
  | None => EmptyString
  | Some h => nth 1 (Js.split h) EmptyString
  end.

(** The account view: the fields of an account that may leave the service. *)
Definition safeFields : list string := ["id"; "name"; "email"; "createdAt"].

Definition accountView (u : User.t) : Js.Json :=
  Js.JObj [("id", Js.JNum (User.id u));
           ("name", Js.JStr (User.name u));
           ("email", Js.JStr (User.email u));
           ("createdAt", Js.JNum (User.createdAt u))].

(** The view of the account inside the login response. *)
Definition loginView (u : User.t) : Js.Json :=
  Js.JObj [("id", Js.JNum (User.id u));
           ("name", Js.JStr (User.name u));
           ("email", Js.JStr (User.email u))].

(** No field of the document, at any depth, is named after the password or
    its digest. *)
Definition hidesCredentials (j : Js.Json) : bool :=
  negb (Js.mentionsKey "passwordHash" j)
  && negb (Js.mentionsKey "password_hash" j)
  && negb (Js.mentionsKey "password" j).

(** The tokens handed to [jwt.verify], latest first. *)
Definition verifyCalls (tr : list Event) : list string :=
  flat_map (fun ev => match ev with EvVerify t _ => [t] | _ => [] end) tr.

(* ------------------------------------------------------------------------- *)
(** ** Stand-ins for the two packages

    Small executable stand-ins for [bcrypt] and [jsonwebtoken], used to run
    the handlers on concrete requests.  They are not the packages: the digest
    is a salt followed by the data, and the token spells out the key and the
    payload.  The token stand-in meets [Jwt.Contract]. *)

Module StandIn.

Definition bit (b : bool) : ascii := if b then "1"%char else "0"%char.

Definition unbit (c : ascii) : option bool :=
  if Ascii.eqb c "1"%char then Some true
  else if Ascii.eqb c "0"%char then Some false
  else None.

(** Eight binary digits of the low byte of the seed. *)
Definition salt (seed : N) : string :=
  match ascii_of_N (seed mod 256) with
  | Ascii b0 b1 b2 b3 b4 b5 b6 b7 =>
      String (bit b0) (String (bit b1) (String (bit b2) (String (bit b3)
      (String (bit b4) (String (bit b5) (String (bit b6) (String (bit b7)
      EmptyString)))))))
  end.

Definition hash (data : string) (rounds : Z) (seed : N) : string :=
  salt seed ++ data.

Definition compare (data encrypted : string) : bool :=
  (substring 8 (String.length encrypted - 8) encrypted =? data)%string.

Definition bcrypt : Bcrypt.Lib :=
  {| Bcrypt.hash := hash; Bcrypt.compare := compare |}.

(** Self-delimiting spellings of numbers and strings, without spaces. *)
Fixpoint encPos (p : positive) : string :=
  match p with
  | xH => "."
  | xO q => String "0" (encPos q)
  | xI q => String "1" (encPos q)
  end.

Definition encZ (z : Z) : string :=
  match z with
  | Z0 => "z"
  | Zpos p => String "p" (encPos p)
  | Zneg p => String "n" (encPos p)
  end.

Fixpoint encStr (s : string) : string :=
  match s with
  | EmptyString => "."
  | String (Ascii b0 b1 b2 b3 b4 b5 b6 b7) r =>
      String "c" (String (bit b0) (String (bit b1) (String (bit b2)
      (String (bit b3) (String (bit b4) (String (bit b5) (String (bit b6)
      (String (bit b7) (encStr r)))))))))
  end.

Fixpoint decPos (s : string) : option (positive * string) :=
  match s with
  | EmptyString => None
  | String c r =>
      if Ascii.eqb c "."%char then Some (xH, r)
      else match unbit c, decPos r with
           | Some true, Some (q, r') => Some (xI q, r')
           | Some false, Some (q, r') => Some (xO q, r')
           | _, _ => None
           end
  end.

Definition decZ (s : string) : option (Z * string) :=
  match s with
  | EmptyString => None
  | String c r =>
      if Ascii.eqb c "z"%char then Some (0, r)
      else if Ascii.eqb c "p"%char then
        match decPos r with Some (q, r') => Some (Zpos q, r') | None => None end
      else if Ascii.eqb c "n"%char then
        match decPos r with Some (q, r') => Some (Zneg q, r') | None => None end
      else None
  end.

Fixpoint decStr (s : string) : option (string * string) :=
  match s with
  | String c0 (String c1 (String c2 (String c3 (String c4 (String c5
      (String c6 (String c7 (String c8 r)))))))) =>
      if Ascii.eqb c0 "c"%char then
        match unbit c1, unbit c2, unbit c3, unbit c4,
              unbit c5, unbit c6, unbit c7, unbit c8, decStr r with
        | Some b0, Some b1, Some b2, Some b3,
          Some b4, Some b5, Some b6, Some b7, Some (t, r') =>
            Some (String (Ascii b0 b1 b2 b3 b4 b5 b6 b7) t, r')
        | _, _, _, _, _, _, _, _, _ => None
        end
      else if Ascii.eqb c0 "."%char
      then Some (EmptyString,
                 String c1 (String c2 (String c3 (String c4 (String c5
                   (String c6 (String c7 (String c8 r))))))))
      else None
  | String c0 r => if Ascii.eqb c0 "."%char then Some (EmptyString, r) else None
  | EmptyString => None
  end.

Definition timespan (ttl : string) : option Z :=
  if (ttl =? "1h")%string then Some 3600
  else if (ttl =? "7d")%string then Some 604800
  else None.

Definition plainError (msg : string) : Js.Error :=
  {| Js.message := msg; Js.statusCode := None; Js.code := None |}.

Definition sign (c : Claims) (secret : option string) (ttl : string) (now : Z)
  : Outcome string :=
  match secret with
  | None => Throw (plainError "secretOrPrivateKey must have a value")
  | Some k =>
      match timespan ttl with
      | None => Throw (plainError "invalid expiresIn option")
      | Some span =>
          Return (encStr k ++ encZ (claim_sub c) ++ encStr (claim_email c)
                  ++ encZ (now / 1000) ++ encZ (now / 1000 + span))
      end
  end.

Definition decode (t : string) : option (string * Z * string * Z * Z) :=
  match decStr t with
  | Some (k, r1) =>
      match decZ r1 with
      | Some (s, r2) =>
          match decStr r2 with
          | Some (e, r3) =>
              match decZ r3 with
              | Some (i, r4) =>
                  match decZ r4 with
                  | Some (x, EmptyString) => Some (k, s, e, i, x)
                  | _ => None
                  end
              | None => None
              end
          | None => None
          end
      | None => None
      end
  | None => None
  end.

Definition verify (t : string) (secret : option string) (now : Z)
  : Outcome Jwt.Payload :=
  match secret with
  | None => Throw (plainError "secret or public key must be provided")
  | Some k =>
      match decode t with
      | None => Throw (plainError "jwt malformed")
      | Some (k', s, e, i, x) =>
          if negb (k' =? k)%string then Throw (plainError "invalid signature")
          else if x <=? now / 1000 then Throw (plainError "jwt expired")
          else Return {| Jwt.sub := Some s; Jwt.email := Some e;
                         Jwt.iat := i; Jwt.exp := x |}
      end
  end.

Definition jwt : Jwt.Lib :=
  {| Jwt.sign := sign; Jwt.verify := verify; Jwt.timespan := timespan |}.

Definition env : ProcessEnv.t :=
  {| ProcessEnv.JWT_SECRET := Some "s3cret";
     ProcessEnv.JWT_EXPIRES_IN := None |}.

(** An empty table at time 5000 ms, nobody else connected. *)
Definition emptyWorld : World :=
  {| users := []; nextId := 1; clock := 5000; entropy := 0;
     others := []; trace := [] |}.

(** The table after Ana has registered with password [secret123]. *)
Definition anaWorld : World :=
  {| users := [{| id := 1; name := "Ana"; email := "ana@x.com";
                  password_hash := "00000000secret123"; created_at := 5000 |}];
     nextId := 2; clock := 5000; entropy := 1; others := []; trace := [] |}.

(** An empty table, and another client whose insert for the same email
    arrives while this request is hashing the password. *)
Definition raceWorld : World :=
  {| users := []; nextId := 1; clock := 5000; entropy := 0;
     others := [[]; [OtherInsert "Eva" "ana@x.com" "00000000other"]];
     trace := [] |}.

Definition anaBody : RegisterBody :=
  {| body_name := Some "Ana"; body_email := Some "ana@x.com";
     body_password := Some "secret123" |}.

End StandIn.

(* ------------------------------------------------------------------------- *)
(** ** The protected route, and vocabulary for the statements about runs *)

Section Routes.

Variable jwt : Jwt.Lib.
Variable env : ProcessEnv.t.

(** [routes/user.routes.js]: [router.get("/me", authMiddleware,
    userController.me)].  The handler runs only when the middleware calls
    [next()], and reads the [req.user] the middleware has set. *)
Definition meRoute (authorization : option string) : M Response :=
  g <- authMiddleware jwt env authorization ;;
  match g with
  | Responded r => ret r
  | Next requser => me requser
  end.

End Routes.

(** The statements sent to the database, latest first. *)
Definition queries (tr : list Event) : list Sql :=
  flat_map (fun ev => match ev with EvQuery q => [q] | _ => [] end) tr.

Definition isInsert (q : Sql) : bool :=
  match q with
  | InsertUser _ _ _ => true
  | _ => false
  end.

(** The INSERT statements among them. *)
Definition inserts (tr : list Event) : list Sql := filter isInsert (queries tr).

(** [m] keeps the property [P] of the world, whether it returns or throws. *)
Definition preserves {A} (P : World -> Prop) (m : M A) : Prop :=
  forall w, P w -> P (snd (m w)).

(** Nobody else is connected, and the table is [us] with serial [n]. *)
Definition quietTable (us : list Row) (n : Z) (w : World) : Prop :=
  others w = [] /\ users w = us /\ nextId w = n.

(* ------------------------------------------------------------------------- *)
(** ** Categories

    [repositories/category.repository.js], [models/category.model.js],
    [services/category.service.js] and [controllers/category.controllers.js].
    The [categories] table does not appear in the sources: the database is a
    parameter that answers each statement with rows or an error. *)

Module Cat.

(** A value bound to a [$n] placeholder: [undefined], a number or a string. *)
Inductive Param : Type :=
| Undefined
| Number (n : Z)
| Text (s : string).

(** A row as the driver returns it. *)
Record Row : Type := mkRow {
  id : Z;
  name : string;
  description : string;
  created_at : Z
}.

(** The statements of the repository, with their parameters. *)
Inductive Sql : Type :=
| InsertCategory (n d : Param)
| SelectAll
| UpdateCategory (n d i : Param)
| SelectById (i : Param)
| SelectByName (n : Param).

(** A database: some state, and the rows or the error each statement gets.
    [result.rowCount] is the number of rows. *)
Record Database : Type := mkDatabase {
  state : Type;
  exec : Sql -> state -> Outcome (list Row) * state
}.

Record World (D : Database) : Type := mkWorld {
  db : state D;       (* the database *)
  clock : Z;          (* Date.now() *)
  trace : list Sql    (* statements sent so far, latest first *)
}.

Arguments mkWorld {D} db clock trace.
Arguments db {D} w.
Arguments clock {D} w.
Arguments trace {D} w.

Definition M (D : Database) (A : Type) : Type :=
  World D -> Outcome A * World D.

Definition ret {D A} (a : A) : M D A := fun w => (Return a, w).

Definition throw {D A} (e : Js.Error) : M D A := fun w => (Throw e, w).

Definition bind {D A B} (m : M D A) (k : A -> M D B) : M D B :=
  fun w =>
    match m w with
    | (Return a, w') => k a w'
    | (Throw e, w') => (Throw e, w')
    end.

Definition tryCatch {D A} (m : M D A) (h : Js.Error -> M D A) : M D A :=
  fun w =>
    match m w with
    | (Return a, w') => (Return a, w')
    | (Throw e, w') => h e w'
    end.

(** [await query(text, params)]. *)
Definition query {D} (q : Sql) : M D (list Row) :=
  fun w =>
    match exec D q (db w) with
    | (o, s) => (o, {| db := s; clock := clock w; trace := q :: trace w |})
    end.

(** [new Date()]. *)
Definition newDate {D} : M D Z := fun w => (Return (clock w), w).

(** [list.map(f)] for an [f] that runs in the monad, left to right. *)
Fixpoint mapM {D A B} (f : A -> M D B) (l : list A) : M D (list B) :=
  match l with
  | [] => ret []
  | x :: rest =>
      bind (f x) (fun y => bind (mapM f rest) (fun ys => ret (y :: ys)))
  end.

(** The object built by the repository's [mapRow]. *)
Record Mapped : Type := mkMapped {
  mapped_id : Z;
  mapped_name : string;
  mapped_description : string;
  mapped_createdAt : Z
}.

(** What a handler passes to [res.json]: a category, an array of
    categories, or [{ message }]. *)
Record Category : Type := mkCategory {
  category_id : Z;
  category_name : string;
  category_description : string;
  category_createdAt : Z
}.

Inductive Sent : Type :=
| SentCategory (c : Category)
| SentCategories (l : list Category)
| SentMessage (m : string).

Record Response : Type := mkResponse {
  status : Z;
  body : Sent
}.

End Cat.

Notation "x <~ m ;; k" := (Cat.bind m (fun x => k))
  (at level 61, m at next level, right associativity).

(** [models/category.model.js]: the constructor takes id, name and
    description from its argument and sets [createdAt] to [new Date()]. *)
Module CategoryModel.

Definition new {D} (o : Cat.Mapped) : Cat.M D Cat.Category :=
  d <~ Cat.newDate ;;
  Cat.ret {| Cat.category_id := Cat.mapped_id o;
             Cat.category_name := Cat.mapped_name o;
             Cat.category_description := Cat.mapped_description o;
             Cat.category_createdAt := d |}.

End CategoryModel.

Module CategoryRepository.

Definition mapRow (data : Cat.Row) : Cat.Mapped :=
  {| Cat.mapped_id := Cat.id data;
     Cat.mapped_name := Cat.name data;
     Cat.mapped_description := Cat.description data;
     Cat.mapped_createdAt := Cat.created_at data |}.

(** [mapRow(result.rows[0])]: a [TypeError] when there is no row. *)
Definition firstRow {D} (result : list Cat.Row) : Cat.M D Cat.Mapped :=
  match result with
  | data :: _ => Cat.ret (mapRow data)
  | [] => Cat.throw typeError
  end.

Definition registerCategory {D} (n d : Cat.Param) : Cat.M D Cat.Mapped :=
  result <~ Cat.query (Cat.InsertCategory n d) ;;
  firstRow result.

Definition allCategories {D} : Cat.M D (list Cat.Mapped) :=
  result <~ Cat.query Cat.SelectAll ;;
  Cat.ret (map mapRow result).

Definition updateCategory {D} (i n d : Cat.Param) : Cat.M D Cat.Mapped :=
  result <~ Cat.query (Cat.UpdateCategory n d i) ;;
  firstRow result.

Definition findCategoryById {D} (i : Cat.Param) : Cat.M D (option Cat.Mapped) :=
  result <~ Cat.query (Cat.SelectById i) ;;
  if Nat.eqb (List.length result) 0 then Cat.ret None
  else o <~ firstRow result ;; Cat.ret (Some o).

Definition findCategoryByName {D} (n : Cat.Param) : Cat.M D (option Cat.Mapped) :=
  result <~ Cat.query (Cat.SelectByName n) ;;
  if Nat.eqb (List.length result) 0 then Cat.ret None
  else o <~ firstRow result ;; Cat.ret (Some o).

End CategoryRepository.

Module CategoryService.

Definition alreadyExists : Js.Error :=
  Js.httpError "La categoría ya existe" 409.

Definition doesNotExist : Js.Error :=
  Js.httpError "La categoría no existe" 404.

Definition registerCategory {D} (n d : Cat.Param) : Cat.M D Cat.Category :=
  existing <~ CategoryRepository.findCategoryByName n ;;
  match existing with
  | Some _ => Cat.throw alreadyExists
  | None =>
      newCategory <~ CategoryRepository.registerCategory n d ;;
      CategoryModel.new newCategory
  end.

Definition allCategories {D} : Cat.M D (list Cat.Category) :=
  categories <~ CategoryRepository.allCategories ;;
  Cat.mapM CategoryModel.new categories.

Definition updateCategory {D} (i n d : Cat.Param) : Cat.M D Cat.Category :=
  existing <~ CategoryRepository.findCategoryById i ;;
  match existing with
  | None => Cat.throw doesNotExist
  | Some _ =>
      updatedCategory <~ CategoryRepository.updateCategory i n d ;;
      CategoryModel.new updatedCategory
  end.

Definition findCategoryById {D} (i : Cat.Param)
  : Cat.M D (option Cat.Category) :=
  category <~ CategoryRepository.findCategoryById i ;;
  match category with
  | None => Cat.ret None
  | Some o => c <~ CategoryModel.new o ;; Cat.ret (Some c)
  end.

End CategoryService.

Module CategoryController.

(** The [catch (error)] block of the four handlers:
    [res.status(error.statusCode || 500).json({ message: error.message ||
    "Error del servidor" })]. *)
Definition errorResponse (error : Js.Error) : Cat.Response :=
  {| Cat.status := Js.orNumber (Js.statusCode error) 500;
     Cat.body := Cat.SentMessage
                   (Js.orString (Some (Js.message error)) "Error del servidor") |}.

Definition registerCategory {D} (n d : Cat.Param) : Cat.M D Cat.Response :=
  Cat.tryCatch
    (newCategory <~ CategoryService.registerCategory n d ;;
     Cat.ret {| Cat.status := 201; Cat.body := Cat.SentCategory newCategory |})
    (fun error => Cat.ret (errorResponse error)).

Definition allCategories {D} : Cat.M D Cat.Response :=
  Cat.tryCatch
    (categories <~ CategoryService.allCategories ;;
     Cat.ret {| Cat.status := 200; Cat.body := Cat.SentCategories categories |})
    (fun error => Cat.ret (errorResponse error)).

Definition updateCategory {D} (i n d : Cat.Param) : Cat.M D Cat.Response :=
  Cat.tryCatch
    (updatedCategory <~ CategoryService.updateCategory i n d ;;
     Cat.ret {| Cat.status := 200;
                Cat.body := Cat.SentCategory updatedCategory |})
    (fun error => Cat.ret (errorResponse error)).

(** [req.params.id] is the path segment, a string. *)
Definition findCategoryById {D} (i : string) : Cat.M D Cat.Response :=
  Cat.tryCatch
    (category <~ CategoryService.findCategoryById (Cat.Text i) ;;
     match category with
     | None =>
         Cat.ret {| Cat.status := 404;
                    Cat.body := Cat.SentMessage "Categoría no encontrada" |}
     | Some c =>
         Cat.ret {| Cat.status := 200; Cat.body := Cat.SentCategory c |}
     end)
    (fun error => Cat.ret (errorResponse error)).

End CategoryController.

(** The categories in what a handler sent. *)
Definition categoriesOf (b : Cat.Sent) : list Cat.Category :=
  match b with
  | Cat.SentCategory c => [c]
  | Cat.SentCategories l => l
  | Cat.SentMessage _ => []
  end.

(** The category a handler makes of a row at time [now]: the row's
    [created_at] is not used. *)
Definition categoryAt (now : Z) (r : Cat.Row) : Cat.Category :=
  {| Cat.category_id := Cat.id r;
     Cat.category_name := Cat.name r;
     Cat.category_description := Cat.description r;
     Cat.category_createdAt := now |}.

(** A table of categories kept in a list, for running the handlers: ids
    are compared with numbers or their decimal spelling, names with
    strings. *)
Module CategoryStandIn.

Definition hasId (i : Cat.Param) (r : Cat.Row) : bool :=
  match i with
  | Cat.Number n => Cat.id r =? n
  | Cat.Text s => (NilZero.string_of_int (Z.to_int (Cat.id r)) =? s)%string
  | Cat.Undefined => false
  end.

Definition hasName (n : Cat.Param) (r : Cat.Row) : bool :=
  match n with
  | Cat.Text s => (Cat.name r =? s)%string
  | _ => false
  end.

Definition text (p : Cat.Param) : string :=
  match p with
  | Cat.Text s => s
  | _ => EmptyString
  end.

Definition exec (q : Cat.Sql) (t : list Cat.Row)
  : Outcome (list Cat.Row) * list Cat.Row :=
  match q with
  | Cat.SelectAll => (Return t, t)
  | Cat.SelectById i => (Return (filter (hasId i) t), t)
  | Cat.SelectByName n => (Return (filter (hasName n) t), t)
  | Cat.InsertCategory n d =>
      let r := {| Cat.id := Z.of_nat (List.length t) + 1; Cat.name := text n;
                  Cat.description := text d; Cat.created_at := 0 |} in
      (Return [r], (t ++ [r])%list)
  | Cat.UpdateCategory n d i =>
      let t' := map (fun r => if hasId i r
                              then {| Cat.id := Cat.id r; Cat.name := text n;
                                      Cat.description := text d;
                                      Cat.created_at := Cat.created_at r |}
                              else r) t in
      (Return (filter (hasId i) t'), t')
  end.

Definition database : Cat.Database :=
  {| Cat.state := list Cat.Row; Cat.exec := exec |}.

(** A database that loses the row between the lookup and the update. *)
Definition forgetful : Cat.Database :=
  {| Cat.state := list Cat.Row;
     Cat.exec := fun q t =>
       match q with
       | Cat.UpdateCategory _ _ _ => (Return [], t)
       | _ => exec q t
       end |}.


Definition books : Cat.Row :=
  {| Cat.id := 1; Cat.name := "Books"; Cat.description := "Printed";
     Cat.created_at := 100 |}.

Definition shelf : Cat.World database :=
  @Cat.mkWorld database [books] 9000 [].

Definition leakyShelf : Cat.World forgetful :=
  @Cat.mkWorld forgetful [books] 9000 [].


End CategoryStandIn.

(* ------------------------------------------------------------------------- *)
(** ** The same layers over any driver and any packages

    The repository, the service and the handlers once more, with what they
    import left open: [query] may answer any rows or throw any error (a
    lost connection, a refused statement), and so may [bcrypt.hash],
    [bcrypt.compare] and [jwt.sign].  The functions of [Program] are these,
    taken at the modelled table and at the packages' pure answers. *)

Module Generic.

Section Collaborators.

Variable query : Sql -> M QueryResult.
Variable bcrypt_hash : string -> Z -> M string.
Variable bcrypt_compare : string -> string -> M bool.
Variable jwt_sign : Claims -> option string -> string -> M string.
Variable env : ProcessEnv.t.

(** *** repositories/user.repository.js *)

Definition findByEmail (e : string) : M (option User.t) :=
  result <- query (SelectByEmail e) ;;
  if Nat.eqb (rowCount result) 0 then ret None
  else u <- firstRow result ;; ret (Some u).

Definition findById (i : option Z) : M (option User.t) :=
  result <- query (SelectById i) ;;
  if Nat.eqb (rowCount result) 0 then ret None
  else u <- firstRow result ;; ret (Some u).

Definition createUser (n e passwordHash : string) : M User.t :=
  result <- query (InsertUser n e passwordHash) ;;
  firstRow result.

(** *** services/user.service.js *)

Definition registerUser (n e password : string) : M User.t :=
  existing <- findByEmail e ;;
  match existing with
  | Some _ => throw emailTaken
  | None =>
      passwordHash <- bcrypt_hash password 10 ;;
      u <- createUser n e passwordHash ;;
      ret (User.new u)
  end.

Definition loginUser (e password : string) : M LoginResult :=
  found <- findByEmail e ;;
  match found with
  | None => throw invalidCredentials
  | Some u =>
      passwordMatch <- bcrypt_compare password (User.passwordHash u) ;;
      if negb passwordMatch then throw invalidCredentials
      else
        t <- jwt_sign {| claim_sub := User.id u; claim_email := User.email u |}
               (ProcessEnv.JWT_SECRET env) (JWT_EXPIRES_IN env) ;;
        ret {| token := t; user := User.new u |}
  end.

Definition getProfile (userId : option Z) : M User.t :=
  found <- findById userId ;;
  match found with
  | None => throw userNotFound
  | Some u => ret (User.new u)
  end.

(** *** controllers/user.controller.js *)

Definition register (b : RegisterBody) : M Response :=
  tryCatch
    (if negb (Js.truthy (body_name b)) || negb (Js.truthy (body_email b))
        || negb (Js.truthy (body_password b))
     then ret missingData
     else
       u <- registerUser (str (body_name b)) (str (body_email b))
              (str (body_password b)) ;;
       ret {| status := 201;
              body := Js.JObj [("id", Js.JNum (User.id u));
                               ("name", Js.JStr (User.name u));
                               ("email", Js.JStr (User.email u));
                               ("createdAt", Js.JNum (User.createdAt u))] |})
    (fun error => ret (errorResponse error)).

Definition login (e password : option string) : M Response :=
  tryCatch
    (if negb (Js.truthy e) || negb (Js.truthy password)
     then ret missingData
     else
       r <- loginUser (str e) (str password) ;;
       ret {| status := 200;
              body := Js.JObj [("token", Js.JStr (token r));
                               ("user",
                                Js.JObj [("id", Js.JNum (User.id (user r)));
                                         ("name", Js.JStr (User.name (user r)));
                                         ("email", Js.JStr (User.email (user r)))])] |})
    (fun error => ret (errorResponse error)).

Definition me (requser : ReqUser.t) : M Response :=
  tryCatch
    (u <- getProfile (ReqUser.id requser) ;;
     ret {| status := 200;
            body := Js.JObj [("id", Js.JNum (User.id u));
                             ("name", Js.JStr (User.name u));
                             ("email", Js.JStr (User.email u));
                             ("createdAt", Js.JNum (User.createdAt u))] |})
    (fun error => ret (errorResponse error)).

End Collaborators.

End Generic.

(** A driver that has lost its connection and a [bcrypt] that fails, for
    running the handlers on failures. *)
Module FailingStandIn.

Definition connectionRefused : Js.Error :=
  {| Js.message := "connect ECONNREFUSED 127.0.0.1:5432";
     Js.statusCode := None; Js.code := Some "ECONNREFUSED" |}.

Definition query (q : Sql) : M QueryResult := throw connectionRefused.

Definition hashFailure : Js.Error :=
  {| Js.message := "data and salt arguments required";
     Js.statusCode := None; Js.code := None |}.

Definition bcrypt_hash (data : string) (rounds : Z) : M string :=
  throw hashFailure.

End FailingStandIn.

(** A [jsonwebtoken] stand-in whose tokens carry no claims: every token
    verifies to a payload without subject and email. *)
Module BareStandIn.

Definition jwt : Jwt.Lib :=
  {| Jwt.sign := fun _ _ _ _ => Return "bare";
     Jwt.verify := fun _ _ _ =>
       Return {| Jwt.sub := None; Jwt.email := None;
                 Jwt.iat := 0; Jwt.exp := 0 |};
     Jwt.timespan := fun _ => None |}.

End BareStandIn.

(* ------------------------------------------------------------------------- *)
(** ** Facts about [split] *)

Lemma split_not_nil (s : string) : Js.split s <> [].
Proof.
  destruct s as [|c r]; simpl; [discriminate|].
  destruct (Ascii.eqb c " "); [discriminate|].
  destruct (Js.split r); discriminate.
Qed.

(** Joining the parts with single spaces gives the string back. *)
Lemma join_split (s : string) : Js.join (Js.split s) = s.
Proof.
  induction s as [|c r IH]; simpl; [reflexivity|].
  destruct (Ascii.eqb_spec c " ") as [->|Hc].
  - simpl. destruct (Js.split r) eqn:E.
    + now apply split_not_nil in E.
    + now rewrite IH.
  - destruct (Js.split r) as [|h t] eqn:E.
    + now apply split_not_nil in E.
    + rewrite <- IH. simpl. destruct t; reflexivity.
Qed.

(** A string without spaces is its own single part. *)
Lemma split_no_space (s : string) : Js.hasSpace s = false -> Js.split s = [s].
Proof.
  induction s as [|c r IH]; simpl; [reflexivity|].
  destruct (Ascii.eqb c " "); simpl; [discriminate|].
  intros H. now rewrite (IH H).
Qed.

(** No part contains a space. *)
Lemma split_parts_no_space (s p : string) :
  In p (Js.split s) -> Js.hasSpace p = false.
Proof.
  revert p. induction s as [|c r IH]; simpl; intros p.
  - intros [<-|[]]. reflexivity.
  - destruct (Ascii.eqb c " ") eqn:Ec.
    + intros [<-|H]; [reflexivity|now apply IH].
    + destruct (Js.split r) as [|h t] eqn:E.
      * intros [<-|[]]. simpl. now rewrite Ec.
      * intros [<-|H].
        -- simpl. rewrite Ec. simpl. apply IH. now left.
        -- apply IH. now right.
Qed.

Lemma split_Bearer (t : string) :
  Js.split ("Bearer " ++ t) = "Bearer" :: Js.split t.
Proof. reflexivity. Qed.

Lemma hasSpace_app (a b : string) :
  Js.hasSpace (a ++ b) = Js.hasSpace a || Js.hasSpace b.
Proof.
  induction a as [|c r IH]; simpl; [reflexivity|].
  now rewrite IH, orb_assoc.
Qed.

(* ------------------------------------------------------------------------- *)
(** ** The token stand-in meets the package's contract *)

Module StandInFacts.
Import StandIn.

Lemma unbit_bit (b : bool) : unbit (bit b) = Some b.
Proof. now destruct b. Qed.

Lemma bit_not_space (b : bool) : Ascii.eqb (bit b) " " = false.
Proof. now destruct b. Qed.

Lemma decPos_encPos (p : positive) (r : string) :
  decPos (encPos p ++ r) = Some (p, r).
Proof.
  induction p as [q IH|q IH|]; simpl; try rewrite IH; reflexivity.
Qed.

Lemma decZ_encZ (z : Z) (r : string) : decZ (encZ z ++ r) = Some (z, r).
Proof.
  destruct z as [|p|p]; simpl; try rewrite decPos_encPos; reflexivity.
Qed.

Lemma decStr_encStr (s r : string) : decStr (encStr s ++ r) = Some (s, r).
Proof.
  induction s as [|[b0 b1 b2 b3 b4 b5 b6 b7] t IH].
  - simpl. destruct r as [|c1 [|c2 [|c3 [|c4 [|c5 [|c6 [|c7 [|c8 r]]]]]]]];
      reflexivity.
  - cbn [encStr append]. cbn [decStr].
    rewrite !unbit_bit, IH. reflexivity.
Qed.

Lemma encPos_no_space (p : positive) : Js.hasSpace (encPos p) = false.
Proof. induction p; simpl; auto. Qed.

Lemma encZ_no_space (z : Z) : Js.hasSpace (encZ z) = false.
Proof. destruct z; simpl; auto using encPos_no_space. Qed.

Lemma encStr_no_space (s : string) : Js.hasSpace (encStr s) = false.
Proof.
  induction s as [|[b0 b1 b2 b3 b4 b5 b6 b7] t IH]; [reflexivity|].
  cbn [encStr Js.hasSpace]. rewrite !bit_not_space, IH. reflexivity.
Qed.

Lemma encStr_not_empty (s : string) : encStr s <> EmptyString.
Proof. destruct s as [|[] t]; discriminate. Qed.

Lemma append_empty (s : string) : (s ++ "")%string = s.
Proof. induction s; simpl; congruence. Qed.

Lemma decode_sign (k : string) (s : Z) (e : string) (i x : Z) :
  decode (encStr k ++ encZ s ++ encStr e ++ encZ i ++ encZ x)
  = Some (k, s, e, i, x).
Proof.
  unfold decode.
  rewrite decStr_encStr, decZ_encZ, decStr_encStr, decZ_encZ.
  assert (H : decZ (encZ x) = Some (x, EmptyString)).
  { rewrite <- (append_empty (encZ x)) at 1. apply decZ_encZ. }
  rewrite H. reflexivity.
Qed.

Lemma jwt_contract : Jwt.Contract jwt.
Proof.
  constructor.
  - intros c k ttl now t. simpl. unfold sign.
    destruct (timespan ttl) as [span|]; [|discriminate].
    intros [= <-]. split.
    + destruct (encStr k) eqn:E; [now apply encStr_not_empty in E|discriminate].
    + rewrite !hasSpace_app, !encStr_no_space, !encZ_no_space. reflexivity.
  - intros c k ttl span now later t. simpl. unfold sign, verify.
    intros Hs Ht Hle Hlt. rewrite Ht in Hs. injection Hs as <-.
    rewrite decode_sign, String.eqb_refl. simpl.
    destruct (Z.leb_spec (now / 1000 + span) (later / 1000)); [lia|reflexivity].
  - reflexivity.
Qed.

End StandInFacts.

(* ------------------------------------------------------------------------- *)
(** ** Running the primitives *)

Lemma interleave_run (w : World) : interleave w = (Return tt, waited w).
Proof. unfold waited, interleave. now destruct (others w). Qed.

Lemma waited_idle (w : World) : others w = [] -> waited w = w.
Proof. unfold waited, interleave. now intros ->. Qed.

Lemma applyTxn_trace (w : World) (t : Txn) : trace (applyTxn w t) = trace w.
Proof.
  destruct t as [n e h]. unfold applyTxn, execSql.
  now destruct (existsb (emailOf e) (users w)).
Qed.

Lemma applyTxn_clock (w : World) (t : Txn) : clock (applyTxn w t) = clock w.
Proof.
  destruct t as [n e h]. unfold applyTxn, execSql.
  now destruct (existsb (emailOf e) (users w)).
Qed.

Lemma applyTxn_keeps_email (e : string) (w : World) (t : Txn) :
  existsb (emailOf e) (users w) = true ->
  existsb (emailOf e) (users (applyTxn w t)) = true.
Proof.
  destruct t as [n e' h]. unfold applyTxn, execSql. intros H.
  destruct (existsb (emailOf e') (users w)); simpl; [exact H|].
  rewrite existsb_app, H. reflexivity.
Qed.

Lemma batch_trace (b : list Txn) (w : World) :
  trace (fold_left applyTxn b w) = trace w.
Proof.
  revert w. induction b as [|t b IH]; intros w; simpl; [reflexivity|].
  now rewrite IH, applyTxn_trace.
Qed.

Lemma batch_clock (b : list Txn) (w : World) :
  clock (fold_left applyTxn b w) = clock w.
Proof.
  revert w. induction b as [|t b IH]; intros w; simpl; [reflexivity|].
  now rewrite IH, applyTxn_clock.
Qed.

Lemma batch_keeps_email (e : string) (b : list Txn) (w : World) :
  existsb (emailOf e) (users w) = true ->
  existsb (emailOf e) (users (fold_left applyTxn b w)) = true.
Proof.
  revert w. induction b as [|t b IH]; intros w H; simpl; [exact H|].
  now apply IH, applyTxn_keeps_email.
Qed.

Lemma waited_trace (w : World) : trace (waited w) = trace w.
Proof.
  unfold waited, interleave. destruct (others w); [reflexivity|].
  simpl. now rewrite batch_trace.
Qed.

Lemma waited_clock (w : World) : clock (waited w) = clock w.
Proof.
  unfold waited, interleave. destruct (others w); [reflexivity|].
  simpl. now rewrite batch_clock.
Qed.

(** Other clients only add rows: an email that is taken stays taken. *)
Lemma waited_keeps_email (e : string) (w : World) :
  existsb (emailOf e) (users w) = true ->
  existsb (emailOf e) (users (waited w)) = true.
Proof.
  unfold waited, interleave. intros H. destruct (others w); [exact H|].
  simpl. now apply batch_keeps_email.
Qed.

Lemma filter_existsb {A} (f : A -> bool) (l : list A) :
  existsb f l = true -> exists x rest, filter f l = x :: rest.
Proof.
  induction l as [|a l IH]; simpl; [discriminate|].
  destruct (f a); simpl; eauto.
Qed.

(** What other clients do to the table does not depend on this request's
    trace or entropy. *)
Lemma applyTxn_same (w1 w2 : World) (t : Txn) :
  users w1 = users w2 -> nextId w1 = nextId w2 -> clock w1 = clock w2 ->
  users (applyTxn w1 t) = users (applyTxn w2 t)
  /\ nextId (applyTxn w1 t) = nextId (applyTxn w2 t)
  /\ clock (applyTxn w1 t) = clock (applyTxn w2 t).
Proof.
  intros Hu Hn Hc. destruct t as [n e h]. unfold applyTxn, execSql.
  rewrite Hu, Hn, Hc. destruct (existsb (emailOf e) (users w2)); cbn; auto.
Qed.

Lemma batch_same (b : list Txn) (w1 w2 : World) :
  users w1 = users w2 -> nextId w1 = nextId w2 -> clock w1 = clock w2 ->
  users (fold_left applyTxn b w1) = users (fold_left applyTxn b w2)
  /\ nextId (fold_left applyTxn b w1) = nextId (fold_left applyTxn b w2)
  /\ clock (fold_left applyTxn b w1) = clock (fold_left applyTxn b w2).
Proof.
  revert w1 w2. induction b as [|t b IH]; intros w1 w2 Hu Hn Hc; cbn; auto.
  destruct (applyTxn_same w1 w2 t Hu Hn Hc) as (Hu' & Hn' & Hc'). now apply IH.
Qed.

Lemma waited_same (w1 w2 : World) :
  users w1 = users w2 -> nextId w1 = nextId w2 -> clock w1 = clock w2 ->
  others w1 = others w2 ->
  users (waited w1) = users (waited w2)
  /\ nextId (waited w1) = nextId (waited w2)
  /\ clock (waited w1) = clock (waited w2).
Proof.
  intros Hu Hn Hc Ho. unfold waited, interleave. rewrite Ho.
  destruct (others w2) as [|b rest]; cbn; auto.
  now apply batch_same.
Qed.

Section Runs.

Variable bcrypt : Bcrypt.Lib.
Variable jwt : Jwt.Lib.
Variable env : ProcessEnv.t.

(** [findByEmail] answers with the oldest matching row of the table as it is
    when the statement arrives. *)
Lemma findByEmail_run (e : string) (w : World) :
  findByEmail e w =
  (Return (option_map mapRow (hd_error (filter (emailOf e) (users (waited w))))),
   logged (EvQuery (SelectByEmail e)) (waited w)).
Proof.
  unfold findByEmail, query, bind. rewrite interleave_run. simpl.
  destruct (filter (emailOf e) (users (waited w))); reflexivity.
Qed.

Lemma findById_run (i : option Z) (w : World) :
  findById i w =
  (Return (option_map mapRow (hd_error (filter (idOf i) (users (waited w))))),
   logged (EvQuery (SelectById i)) (waited w)).
Proof.
  unfold findById, query, bind. rewrite interleave_run. simpl.
  destruct (filter (idOf i) (users (waited w))); reflexivity.
Qed.

Lemma registerUser_bind (n e p : string) (w : World) :
  registerUser bcrypt n e p w =
  match findByEmail e w with
  | (Return (Some _), w1) => (Throw emailTaken, w1)
  | (Return None, w1) =>
      match bcrypt_hash bcrypt p 10 w1 with
      | (Return h, w2) =>
          match createUser n e h w2 with
          | (Return u, w3) => (Return (User.new u), w3)
          | (Throw err, w3) => (Throw err, w3)
          end
      | (Throw err, w2) => (Throw err, w2)
      end
  | (Throw err, w1) => (Throw err, w1)
  end.
Proof.
  unfold registerUser, bind.
  destruct (findByEmail e w) as [[[u|]|err] w1]; reflexivity.
Qed.

Lemma bcrypt_hash_run (d : string) (rounds : Z) (w : World) :
  bcrypt_hash bcrypt d rounds w
  = (Return (Bcrypt.hash bcrypt d rounds (entropy (waited w))),
     {| users := users (waited w); nextId := nextId (waited w);
        clock := clock (waited w); entropy := N.succ (entropy (waited w));
        others := others (waited w);
        trace := EvHash d rounds :: trace (waited w) |}).
Proof.
  unfold bcrypt_hash, bind. rewrite interleave_run. reflexivity.
Qed.

(** The insert is refused when the email is in the table as the statement
    arrives; otherwise the new row comes back. *)
Lemma createUser_fst (n e h : string) (w : World) :
  fst (createUser n e h w)
  = if existsb (emailOf e) (users (waited w)) then Throw uniqueViolation
    else Return (mapRow {| id := nextId (waited w); name := n; email := e;
                           password_hash := h;
                           created_at := clock (waited w) |}).
Proof.
  unfold createUser, query, bind. rewrite interleave_run. cbn.
  destruct (existsb (emailOf e) (users (waited w))); reflexivity.
Qed.

Lemma bcrypt_compare_run (d h : string) (w : World) :
  bcrypt_compare bcrypt d h w
  = (Return (Bcrypt.compare bcrypt d h), logged (EvCompare d h) (waited w)).
Proof.
  unfold bcrypt_compare, bind. rewrite interleave_run. reflexivity.
Qed.

Lemma jwt_sign_run (c : Claims) (k : option string) (ttl : string) (w : World) :
  jwt_sign jwt c k ttl w
  = (Jwt.sign jwt c k ttl (clock w), logged (EvSign c k ttl) w).
Proof. reflexivity. Qed.

Lemma jwt_verify_run (t : string) (k : option string) (w : World) :
  jwt_verify jwt t k w
  = (Jwt.verify jwt t k (clock w), logged (EvVerify t k) w).
Proof. reflexivity. Qed.

Lemma loginUser_bind (e p : string) (w : World) :
  loginUser bcrypt jwt env e p w =
  match findByEmail e w with
  | (Return None, w1) => (Throw invalidCredentials, w1)
  | (Return (Some u), w1) =>
      if Bcrypt.compare bcrypt p (User.passwordHash u) then
        match Jwt.sign jwt
                {| claim_sub := User.id u; claim_email := User.email u |}
                (ProcessEnv.JWT_SECRET env) (JWT_EXPIRES_IN env)
                (clock w1) with
        | Return t =>
            (Return {| token := t; user := User.new u |},
             logged (EvSign {| claim_sub := User.id u;
                               claim_email := User.email u |}
                       (ProcessEnv.JWT_SECRET env) (JWT_EXPIRES_IN env))
               (logged (EvCompare p (User.passwordHash u)) (waited w1)))
        | Throw err =>
            (Throw err,
             logged (EvSign {| claim_sub := User.id u;
                               claim_email := User.email u |}
                       (ProcessEnv.JWT_SECRET env) (JWT_EXPIRES_IN env))
               (logged (EvCompare p (User.passwordHash u)) (waited w1)))
        end
      else (Throw invalidCredentials,
            logged (EvCompare p (User.passwordHash u)) (waited w1))
  | (Throw err, w1) => (Throw err, w1)
  end.
Proof.
  unfold loginUser, bind at 1.
  destruct (findByEmail e w) as [[[u|]|err] w1]; try reflexivity.
  unfold bind at 1. rewrite bcrypt_compare_run.
  destruct (Bcrypt.compare bcrypt p (User.passwordHash u)); cbn [negb];
    [|reflexivity].
  unfold bind. rewrite jwt_sign_run.
  cbn [logged logEvent snd clock]. rewrite waited_clock.
  destruct (Jwt.sign jwt _ _ _ _); reflexivity.
Qed.

Lemma getProfile_bind (i : option Z) (w : World) :
  getProfile i w =
  match findById i w with
  | (Return None, w1) => (Throw userNotFound, w1)
  | (Return (Some u), w1) => (Return (User.new u), w1)
  | (Throw err, w1) => (Throw err, w1)
  end.
Proof.
  unfold getProfile, bind.
  destruct (findById i w) as [[[u|]|err] w1]; reflexivity.
Qed.

End Runs.

Lemma truthy_Some (s : string) : s <> EmptyString -> Js.truthy (Some s) = true.
Proof.
  intros H. simpl. destruct (String.eqb_spec s ""); [contradiction|reflexivity].
Qed.

Lemma str_Some (s : string) : str (Some s) = s.
Proof.
  unfold str. simpl. destruct (String.eqb_spec s ""); congruence.
Qed.

Section Handlers.

Variable bcrypt : Bcrypt.Lib.
Variable jwt : Jwt.Lib.
Variable env : ProcessEnv.t.

(** With its three fields present, [register] answers 201 with four fields
    of the account when the service returns, and [errorResponse] when the
    service throws. *)
Lemma register_run (n e p : string) (w : World) :
  n <> EmptyString -> e <> EmptyString -> p <> EmptyString ->
  register bcrypt
    {| body_name := Some n; body_email := Some e; body_password := Some p |} w
  = match registerUser bcrypt n e p w with
    | (Return u, w') =>
        (Return {| status := 201;
                   body := Js.JObj [("id", Js.JNum (User.id u));
                                    ("name", Js.JStr (User.name u));
                                    ("email", Js.JStr (User.email u));
                                    ("createdAt", Js.JNum (User.createdAt u))] |},
         w')
    | (Throw err, w') => (Return (errorResponse err), w')
    end.
Proof.
  intros Hn He Hp. unfold register, tryCatch. cbn [body_name body_email body_password].
  rewrite !truthy_Some, !str_Some by assumption. cbn [negb orb].
  unfold bind. destruct (registerUser bcrypt n e p w) as [[u|err] w']; reflexivity.
Qed.

Lemma login_run (e p : string) (w : World) :
  e <> EmptyString -> p <> EmptyString ->
  login bcrypt jwt env (Some e) (Some p) w
  = match loginUser bcrypt jwt env e p w with
    | (Return r, w') =>
        (Return {| status := 200;
                   body := Js.JObj [("token", Js.JStr (token r));
                                    ("user",
                                     Js.JObj [("id", Js.JNum (User.id (user r)));
                                              ("name", Js.JStr (User.name (user r)));
                                              ("email", Js.JStr (User.email (user r)))])] |},
         w')
    | (Throw err, w') => (Return (errorResponse err), w')
    end.
Proof.
  intros He Hp. unfold login, tryCatch.
  rewrite !truthy_Some, !str_Some by assumption. cbn [negb orb].
  unfold bind. destruct (loginUser bcrypt jwt env e p w) as [[r|err] w']; reflexivity.
Qed.

Lemma me_run (requser : ReqUser.t) (w : World) :
  me requser w
  = match getProfile (ReqUser.id requser) w with
    | (Return u, w') =>
        (Return {| status := 200;
                   body := Js.JObj [("id", Js.JNum (User.id u));
                                    ("name", Js.JStr (User.name u));
                                    ("email", Js.JStr (User.email u));
                                    ("createdAt", Js.JNum (User.createdAt u))] |},
         w')
    | (Throw err, w') => (Return (errorResponse err), w')
    end.
Proof.
  unfold me, tryCatch, bind.
  destruct (getProfile (ReqUser.id requser) w) as [[u|err] w']; reflexivity.
Qed.

End Handlers.

(* ------------------------------------------------------------------------- *)
(** ** Registration *)

(** The scenario of the specification: on an empty table Ana's registration
    answers 201 and leaves her row in the table. *)
Example register_ana :
  register StandIn.bcrypt StandIn.anaBody StandIn.emptyWorld
  = (Return {| status := 201;
               body := Js.JObj [("id", Js.JNum 1); ("name", Js.JStr "Ana");
                                ("email", Js.JStr "ana@x.com");
                                ("createdAt", Js.JNum 5000)] |},
     {| users := users StandIn.anaWorld; nextId := 2; clock := 5000;
        entropy := 1; others := [];
        trace := [EvQuery (InsertUser "Ana" "ana@x.com" "00000000secret123");
                  EvHash "secret123" 10;
                  EvQuery (SelectByEmail "ana@x.com")] |}).
Proof. reflexivity. Qed.

(** The rest of the scenario: Ana logs in, presents the token, and reads
    her profile, which is the view her registration answered. *)
Example login_then_profile :
  exists (tok : string) (w1 w2 : World),
    loginUser StandIn.bcrypt StandIn.jwt StandIn.env "ana@x.com" "secret123"
      StandIn.anaWorld
    = (Return {| token := tok;
                 user := {| User.id := 1; User.name := "Ana";
                            User.email := "ana@x.com";
                            User.passwordHash := "00000000secret123";
                            User.createdAt := 5000 |} |}, w1) /\
    authMiddleware StandIn.jwt StandIn.env (Some ("Bearer " ++ tok)) w1
    = (Return (Next {| ReqUser.id := Some 1;
                       ReqUser.email := Some "ana@x.com" |}), w2) /\
    fst (me {| ReqUser.id := Some 1; ReqUser.email := Some "ana@x.com" |} w2)
    = Return {| status := 200;
                body := Js.JObj [("id", Js.JNum 1); ("name", Js.JStr "Ana");
                                 ("email", Js.JStr "ana@x.com");
                                 ("createdAt", Js.JNum 5000)] |}.
Proof. do 3 eexists. repeat split. Qed.

(** C8.  When the table already holds an account with the email, [registerUser]
    throws the 409 error "El email ya esta registrado" and the only call it
    makes is the lookup: no hash, no insert.  The table is as the other
    clients left it, and unchanged when nobody else is connected; the
    handler answers 409. *)
Theorem register_existing_email_conflict
  (bcrypt : Bcrypt.Lib) (n e p : string) (w : World) :
  existsb (emailOf e) (users w) = true ->
  fst (registerUser bcrypt n e p w) = Throw emailTaken /\
  Js.statusCode emailTaken = Some 409 /\
  trace (snd (registerUser bcrypt n e p w))
    = EvQuery (SelectByEmail e) :: trace w /\
  users (snd (registerUser bcrypt n e p w)) = users (waited w) /\
  nextId (snd (registerUser bcrypt n e p w)) = nextId (waited w) /\
  (others w = [] ->
   users (snd (registerUser bcrypt n e p w)) = users w /\
   nextId (snd (registerUser bcrypt n e p w)) = nextId w) /\
  (n <> EmptyString -> e <> EmptyString -> p <> EmptyString ->
   fst (register bcrypt {| body_name := Some n; body_email := Some e;
                           body_password := Some p |} w)
   = Return {| status := 409;
               body := messageBody "El email ya esta registrado" |}).
Proof.
  intros H.
  assert (R : registerUser bcrypt n e p w
              = (Throw emailTaken, logged (EvQuery (SelectByEmail e)) (waited w))).
  { rewrite registerUser_bind, findByEmail_run.
    destruct (filter_existsb _ _ (waited_keeps_email e w H)) as (r & rest & ->).
    reflexivity. }
  rewrite R. cbn [fst snd].
  repeat split; try reflexivity.
  - cbn. now rewrite waited_trace.
  - rewrite (waited_idle w) by assumption. reflexivity.
  - rewrite (waited_idle w) by assumption. reflexivity.
  - intros Hn He Hp. rewrite register_run, R by assumption. reflexivity.
Qed.

Lemma register_existing_email_conflict_witness :
  existsb (emailOf "ana@x.com") (users StandIn.anaWorld) = true /\
  fst (registerUser StandIn.bcrypt "Ana2" "ana@x.com" "other" StandIn.anaWorld)
  = Throw emailTaken /\
  users (snd (registerUser StandIn.bcrypt "Ana2" "ana@x.com" "other"
                StandIn.anaWorld))
  = users StandIn.anaWorld /\
  fst (register StandIn.bcrypt
         {| body_name := Some "Ana2"; body_email := Some "ana@x.com";
            body_password := Some "other" |} StandIn.anaWorld)
  = Return {| status := 409;
              body := messageBody "El email ya esta registrado" |}.
Proof.
  split; [reflexivity|].
  destruct (register_existing_email_conflict StandIn.bcrypt "Ana2" "ana@x.com"
              "other" StandIn.anaWorld eq_refl)
    as (H1 & _ & _ & _ & _ & H6 & H7).
  split; [exact H1|]. split.
  - apply H6. reflexivity.
  - apply H7; discriminate.
Defined.

(** C1, as the code has it.  When the lookup finds nobody and the insert then
    fails with the driver's duplicate-key error (SQLSTATE 23505, no
    [statusCode]), [registerUser] throws that very error, not the 409 error
    of the pre-check, and the handler answers 500 with the driver's
    message.  The 409 error is thrown only when the lookup finds the
    email. *)
Theorem register_duplicate_key_propagates
  (bcrypt : Bcrypt.Lib) (n e p h : string) (w w1 w2 : World) :
  findByEmail e w = (Return None, w1) ->
  bcrypt_hash bcrypt p 10 w1 = (Return h, w2) ->
  fst (createUser n e h w2) = Throw uniqueViolation ->
  fst (registerUser bcrypt n e p w) = Throw uniqueViolation /\
  uniqueViolation <> emailTaken /\
  (n <> EmptyString -> e <> EmptyString -> p <> EmptyString ->
   fst (register bcrypt {| body_name := Some n; body_email := Some e;
                           body_password := Some p |} w)
   = Return {| status := 500;
               body := messageBody (Js.message uniqueViolation) |}) /\
  (forall (n' e' p' : string) (w' : World),
     fst (registerUser bcrypt n' e' p' w') = Throw emailTaken ->
     exists u, fst (findByEmail e' w') = Return (Some u)).
Proof.
  intros Hfind Hhash Hins.
  assert (Only : forall (n' e' p' : string) (w' : World),
             fst (registerUser bcrypt n' e' p' w') = Throw emailTaken ->
             exists u, fst (findByEmail e' w') = Return (Some u)).
  { intros n' e' p' w'. rewrite registerUser_bind, findByEmail_run.
    destruct (hd_error _) as [r|]; cbn [option_map fst]; [eauto|].
    rewrite bcrypt_hash_run.
    match goal with
    | |- context [createUser n' e' ?d ?a] =>
        pose proof (createUser_fst n' e' d a) as F;
        destruct (createUser n' e' d a) as [[u|err] w3]
    end; cbn [fst] in *; [discriminate|].
    intros [= ->]. destruct (existsb _ _); discriminate F. }
  assert (R : fst (registerUser bcrypt n e p w) = Throw uniqueViolation).
  { rewrite registerUser_bind, Hfind, Hhash.
    destruct (createUser n e h w2) as [[u|err] w3]; cbn [fst] in *;
      [discriminate|exact Hins]. }
  split; [exact R|]. split; [discriminate|]. split; [|exact Only].
  intros Hn He Hp. rewrite register_run by assumption.
  destruct (registerUser bcrypt n e p w) as [[u|err] w3]; cbn [fst] in *;
    [discriminate|].
  injection R as ->. reflexivity.
Qed.

Lemma register_duplicate_key_propagates_witness :
  fst (registerUser StandIn.bcrypt "Ana" "ana@x.com" "secret123"
         StandIn.raceWorld)
  = Throw uniqueViolation /\
  fst (register StandIn.bcrypt StandIn.anaBody StandIn.raceWorld)
  = Return {| status := 500;
              body := messageBody (Js.message uniqueViolation) |}.
Proof.
  destruct (register_duplicate_key_propagates StandIn.bcrypt
              "Ana" "ana@x.com" "secret123" StandIn.raceWorld
              (h := "00000000secret123")
              (w1 := snd (findByEmail "ana@x.com" StandIn.raceWorld))
              (w2 := snd (bcrypt_hash StandIn.bcrypt "secret123" 10
                            (snd (findByEmail "ana@x.com" StandIn.raceWorld))))
              eq_refl eq_refl eq_refl)
    as (H1 & _ & H3 & _).
  split; [exact H1|]. apply H3; discriminate.
Defined.

(** C1 fails as stated: the email is absent at the pre-check, another
    client inserts it during the hashing, the insert is refused as a
    duplicate, and the caller sees the driver's error and status 500, not
    the 409 conflict. *)
Lemma register_race_is_not_conflict :
  fst (findByEmail "ana@x.com" StandIn.raceWorld) = Return None /\
  fst (registerUser StandIn.bcrypt "Ana" "ana@x.com" "secret123"
         StandIn.raceWorld)
  = Throw uniqueViolation /\
  fst (registerUser StandIn.bcrypt "Ana" "ana@x.com" "secret123"
         StandIn.raceWorld)
  <> Throw emailTaken /\
  fst (register StandIn.bcrypt StandIn.anaBody StandIn.raceWorld)
  = Return {| status := 500;
              body := messageBody
                "duplicate key value violates unique constraint users_email_key" |}.
Proof.
  repeat split; try reflexivity; discriminate.
Qed.

(* ------------------------------------------------------------------------- *)
(** ** Login *)

(** C2.  A login whose email is found but whose password does not match the
    stored digest, and a login whose email is not found, throw the same
    error: message "Credenciales invalidas", status 401, nothing else.  The
    handler answers both with the same status and the same body. *)
Theorem login_failures_indistinguishable
  (bcrypt : Bcrypt.Lib) (jwt : Jwt.Lib) (env : ProcessEnv.t)
  (e p e' p' : string) (u : User.t) (w w' : World) :
  fst (findByEmail e w) = Return (Some u) ->
  Bcrypt.compare bcrypt p (User.passwordHash u) = false ->
  fst (findByEmail e' w') = Return None ->
  fst (loginUser bcrypt jwt env e p w) = Throw invalidCredentials /\
  fst (loginUser bcrypt jwt env e' p' w') = Throw invalidCredentials /\
  invalidCredentials
  = {| Js.message := "Credenciales invalidas"; Js.statusCode := Some 401;
       Js.code := None |} /\
  (e <> EmptyString -> p <> EmptyString ->
   e' <> EmptyString -> p' <> EmptyString ->
   fst (login bcrypt jwt env (Some e) (Some p) w)
   = Return {| status := 401; body := messageBody "Credenciales invalidas" |} /\
   fst (login bcrypt jwt env (Some e') (Some p') w')
   = Return {| status := 401; body := messageBody "Credenciales invalidas" |}).
Proof.
  intros Hfound Hwrong Habsent.
  assert (R1 : fst (loginUser bcrypt jwt env e p w) = Throw invalidCredentials).
  { rewrite loginUser_bind.
    destruct (findByEmail e w) as [[[u0|]|err] w1]; cbn [fst] in Hfound;
      try discriminate.
    injection Hfound as ->. now rewrite Hwrong. }
  assert (R2 : fst (loginUser bcrypt jwt env e' p' w') = Throw invalidCredentials).
  { rewrite loginUser_bind.
    destruct (findByEmail e' w') as [[[u0|]|err] w1]; cbn [fst] in Habsent;
      try discriminate.
    reflexivity. }
  repeat split; try assumption.
  - rewrite login_run by assumption.
    destruct (loginUser bcrypt jwt env e p w) as [[r|err] w1]; cbn [fst] in *;
      [discriminate|].
    injection R1 as ->. reflexivity.
  - rewrite login_run by assumption.
    destruct (loginUser bcrypt jwt env e' p' w') as [[r|err] w1]; cbn [fst] in *;
      [discriminate|].
    injection R2 as ->. reflexivity.
Qed.

Lemma login_failures_indistinguishable_witness :
  fst (login StandIn.bcrypt StandIn.jwt StandIn.env
         (Some "ana@x.com") (Some "wrong") StandIn.anaWorld)
  = fst (login StandIn.bcrypt StandIn.jwt StandIn.env
           (Some "bob@x.com") (Some "secret123") StandIn.anaWorld).
Proof.
  destruct (login_failures_indistinguishable StandIn.bcrypt StandIn.jwt
              StandIn.env "ana@x.com" "wrong" "bob@x.com" "secret123"
              (u := mapRow {| id := 1; name := "Ana"; email := "ana@x.com";
                              password_hash := "00000000secret123";
                              created_at := 5000 |})
              StandIn.anaWorld StandIn.anaWorld eq_refl eq_refl eq_refl)
    as (_ & _ & _ & H).
  destruct H as [H1 H2]; try discriminate.
  rewrite H1, H2. reflexivity.
Defined.

(* ------------------------------------------------------------------------- *)
(** ** The gate *)

Lemma truthy_nth_error (l : list string) (i : nat) :
  Js.truthy (nth_error l i) = negb (nth i l EmptyString =? "")%string.
Proof.
  revert l. induction i as [|i IH]; intros [|x l]; simpl; auto.
Qed.

Lemma str_nth_error (l : list string) (i : nat) :
  str (nth_error l i) = nth i l EmptyString.
Proof.
  revert l. induction i as [|i IH]; intros [|x l]; simpl; auto;
    unfold str; simpl; destruct (String.eqb_spec x ""); congruence.
Qed.

Lemma malformedHeader_dec (a : option string) :
  {malformedHeader a} + {~ malformedHeader a}.
Proof.
  destruct a as [h|]; simpl; [|now left].
  destruct (string_dec (hd EmptyString (Js.split h)) "Bearer") as [E1|N1];
    [|now left; left].
  destruct (string_dec (nth 1 (Js.split h) EmptyString) "") as [E2|N2];
    [now left; right|].
  right. intros [H|H]; contradiction.
Qed.

Section Gate.

Variable jwt : Jwt.Lib.
Variable env : ProcessEnv.t.

(** A malformed header is answered at once, and the world is untouched. *)
Lemma authMiddleware_malformed (a : option string) (w : World) :
  malformedHeader a ->
  authMiddleware jwt env a w = (Return (Responded noAutorizado), w).
Proof.
  unfold authMiddleware. destruct a as [h|]; [|reflexivity].
  cbn [malformedHeader]. intros Hm. cbv zeta. cbn [Js.orString].
  destruct (String.eqb_spec h "") as [->|Hh]; [reflexivity|].
  rewrite truthy_nth_error.
  destruct (Js.split h) as [|s0 l] eqn:E; [now apply split_not_nil in E|].
  cbn [nth_error schemeIsBearer hd] in *.
  destruct Hm as [Hs|Ht].
  - destruct (String.eqb_spec s0 "Bearer"); [contradiction|reflexivity].
  - rewrite Ht. cbn. rewrite orb_true_r. reflexivity.
Qed.

(** Any other header reaches [jwt.verify], once, with its second part. *)
Lemma authMiddleware_well_formed (a : option string) (w : World) :
  ~ malformedHeader a ->
  authMiddleware jwt env a w =
  (match Jwt.verify jwt (bearerToken a) (ProcessEnv.JWT_SECRET env) (clock w) with
   | Return payload =>
       Return (Next {| ReqUser.id := Jwt.sub payload;
                       ReqUser.email := Jwt.email payload |})
   | Throw _ => Return (Responded tokenInvalido)
   end,
   logged (EvVerify (bearerToken a) (ProcessEnv.JWT_SECRET env)) w).
Proof.
  unfold authMiddleware. destruct a as [h|]; [|now intros []].
  intros Hm. cbn [malformedHeader bearerToken] in *.
  assert (Hh : h <> EmptyString).
  { intros ->. apply Hm. left. discriminate. }
  cbv zeta. cbn [Js.orString].
  destruct (String.eqb_spec h ""); [contradiction|].
  rewrite truthy_nth_error, str_nth_error.
  destruct (Js.split h) as [|s0 l] eqn:E; [now apply split_not_nil in E|].
  cbn [nth_error schemeIsBearer hd] in *.
  destruct (String.eqb_spec s0 "Bearer") as [->|Hs]; [|exfalso; auto].
  destruct (String.eqb_spec (nth 1 ("Bearer" :: l) EmptyString) "") as [Ht|Ht];
    [exfalso; auto|].
  cbn [negb orb]. unfold tryCatch, bind. rewrite jwt_verify_run.
  destruct (Jwt.verify jwt _ _ _); reflexivity.
Qed.

End Gate.

(** C4.  A header that is absent, whose first space-separated part is not
    exactly [Bearer], or that has no non-empty second part, is answered 401
    "No autorizado" with no call made at all, so [jwt.verify] is not
    reached; every other header makes exactly one call to [jwt.verify], on
    the header's second part. *)
Theorem gate_cheap_rejection
  (jwt : Jwt.Lib) (env : ProcessEnv.t) (a : option string) (w : World) :
  (malformedHeader a ->
   authMiddleware jwt env a w
   = (Return (Responded {| status := 401; body := messageBody "No autorizado" |}),
      w) /\
   verifyCalls (trace (snd (authMiddleware jwt env a w)))
   = verifyCalls (trace w)) /\
  (~ malformedHeader a ->
   bearerToken a <> EmptyString /\
   trace (snd (authMiddleware jwt env a w))
   = EvVerify (bearerToken a) (ProcessEnv.JWT_SECRET env) :: trace w /\
   verifyCalls (trace (snd (authMiddleware jwt env a w)))
   = bearerToken a :: verifyCalls (trace w)).
Proof.
  split; intros H.
  - rewrite authMiddleware_malformed by assumption. split; reflexivity.
  - rewrite authMiddleware_well_formed by assumption. cbn [snd].
    split; [|split; reflexivity].
    destruct a as [h|]; [|now destruct H].
    cbn in *. intros E. apply H. now right.
Qed.

Lemma gate_cheap_rejection_witness :
  (malformedHeader (Some "bearer abc") /\
   authMiddleware StandIn.jwt StandIn.env (Some "bearer abc") StandIn.anaWorld
   = (Return (Responded {| status := 401;
                           body := messageBody "No autorizado" |}),
      StandIn.anaWorld)) /\
  (~ malformedHeader (Some "Bearer abc") /\
   trace (snd (authMiddleware StandIn.jwt StandIn.env (Some "Bearer abc")
                 StandIn.anaWorld))
   = [EvVerify "abc" (Some "s3cret")]).
Proof.
  assert (M : malformedHeader (Some "bearer abc")) by (left; discriminate).
  assert (W : ~ malformedHeader (Some "Bearer abc")).
  { intros [H|H]; [now apply H|discriminate]. }
  split; split; try assumption.
  - apply (gate_cheap_rejection StandIn.jwt StandIn.env (Some "bearer abc")
             StandIn.anaWorld). exact M.
  - apply (gate_cheap_rejection StandIn.jwt StandIn.env (Some "Bearer abc")
             StandIn.anaWorld). exact W.
Defined.

(** C3, as the code has it.  Every rejection by the gate has status 401.
    The body is "No autorizado" when the request is turned away at the
    header check and "Token invalido" when [jwt.verify] throws, whatever it
    throws: bad signature, expiry and malformed token are not told apart,
    but they are told apart from a missing or malformed header. *)
Theorem gate_rejections
  (jwt : Jwt.Lib) (env : ProcessEnv.t) (a : option string) (w : World)
  (r : Response) :
  fst (authMiddleware jwt env a w) = Return (Responded r) ->
  status r = 401 /\
  ((malformedHeader a /\ r = noAutorizado /\
    body r = messageBody "No autorizado")
   \/
   (~ malformedHeader a /\ r = tokenInvalido /\
    body r = messageBody "Token invalido" /\
    exists err,
      Jwt.verify jwt (bearerToken a) (ProcessEnv.JWT_SECRET env) (clock w)
      = Throw err)).
Proof.
  destruct (malformedHeader_dec a) as [Hm|Hw].
  - rewrite authMiddleware_malformed by assumption. cbn [fst].
    intros [= <-]. split; [reflexivity|]. left. auto.
  - rewrite authMiddleware_well_formed by assumption. cbn [fst].
    destruct (Jwt.verify jwt _ _ _) as [payload|err] eqn:E; [discriminate|].
    intros [= <-]. split; [reflexivity|]. right. eauto 6.
Qed.

Lemma gate_rejections_witness :
  fst (authMiddleware StandIn.jwt StandIn.env (Some "Bearer abc")
         StandIn.anaWorld)
  = Return (Responded tokenInvalido) /\
  status tokenInvalido = 401.
Proof.
  split; [reflexivity|].
  apply (gate_rejections StandIn.jwt StandIn.env (Some "Bearer abc")
           StandIn.anaWorld (r := tokenInvalido)).
  reflexivity.
Defined.

(** C3 fails as stated: a request without header and a request with a
    well-formed header whose token does not verify are both rejected, with
    different bodies. *)
Lemma gate_rejections_differ :
  fst (authMiddleware StandIn.jwt StandIn.env None StandIn.anaWorld)
  = Return (Responded {| status := 401;
                         body := messageBody "No autorizado" |}) /\
  fst (authMiddleware StandIn.jwt StandIn.env (Some "Bearer x")
         StandIn.anaWorld)
  = Return (Responded {| status := 401;
                         body := messageBody "Token invalido" |}) /\
  messageBody "No autorizado" <> messageBody "Token invalido".
Proof.
  repeat split; try reflexivity. discriminate.
Qed.

(* ------------------------------------------------------------------------- *)
(** ** Issuing a token and presenting it *)

Lemma bearer_header_well_formed (t : string) :
  t <> EmptyString -> Js.hasSpace t = false ->
  ~ malformedHeader (Some ("Bearer " ++ t)) /\
  bearerToken (Some ("Bearer " ++ t)) = t.
Proof.
  intros Ht Hs. cbn [malformedHeader bearerToken].
  rewrite split_Bearer, (split_no_space t Hs). cbn [hd nth].
  split; [|reflexivity]. intros [H|H]; [now apply H|contradiction].
Qed.

(** C6.  Given a [jsonwebtoken] that keeps its contract, a configured secret
    and a positive token lifetime: a token signed for any account id and
    email, verified at once, yields that id as subject, that email, and an
    expiry equal to the issue time plus the lifetime, and the gate lets it
    through with exactly that id and email.  This holds in particular for
    the token a successful login returns, whose subject and email are those
    of the account found.  When [JWT_EXPIRES_IN] is not set the lifetime is
    one hour. *)
Theorem issue_then_verify
  (bcrypt : Bcrypt.Lib) (jwt : Jwt.Lib) (env : ProcessEnv.t)
  (k : string) (span : Z) :
  Jwt.Contract jwt ->
  ProcessEnv.JWT_SECRET env = Some k ->
  Jwt.timespan jwt (JWT_EXPIRES_IN env) = Some span ->
  0 < span ->
  (forall (c : Claims) (w w1 : World) (t : string),
     jwt_sign jwt c (ProcessEnv.JWT_SECRET env) (JWT_EXPIRES_IN env) w
     = (Return t, w1) ->
     jwt_verify jwt t (ProcessEnv.JWT_SECRET env) w1
     = (Return {| Jwt.sub := Some (claim_sub c);
                  Jwt.email := Some (claim_email c);
                  Jwt.iat := clock w / 1000;
                  Jwt.exp := clock w / 1000 + span |},
        logged (EvVerify t (Some k)) w1) /\
     fst (authMiddleware jwt env (Some ("Bearer " ++ t)) w1)
     = Return (Next {| ReqUser.id := Some (claim_sub c);
                       ReqUser.email := Some (claim_email c) |})) /\
  (forall (e p : string) (w w' : World) (r : LoginResult),
     loginUser bcrypt jwt env e p w = (Return r, w') ->
     fst (authMiddleware jwt env (Some ("Bearer " ++ token r)) w')
     = Return (Next {| ReqUser.id := Some (User.id (user r));
                       ReqUser.email := Some (User.email (user r)) |})) /\
  (ProcessEnv.JWT_EXPIRES_IN env = None -> span = 3600).
Proof.
  intros C Hk Hspan Hpos.
  assert (G : forall c now t,
             Jwt.sign jwt c (Some k) (JWT_EXPIRES_IN env) now = Return t ->
             forall w1, clock w1 = now ->
             Jwt.verify jwt t (Some k) (clock w1)
             = Return {| Jwt.sub := Some (claim_sub c);
                         Jwt.email := Some (claim_email c);
                         Jwt.iat := now / 1000;
                         Jwt.exp := now / 1000 + span |} /\
             fst (authMiddleware jwt env (Some ("Bearer " ++ t)) w1)
             = Return (Next {| ReqUser.id := Some (claim_sub c);
                               ReqUser.email := Some (claim_email c) |})).
  { intros c now t Hsign w1 Hclock.
    assert (V : Jwt.verify jwt t (Some k) (clock w1)
                = Return {| Jwt.sub := Some (claim_sub c);
                            Jwt.email := Some (claim_email c);
                            Jwt.iat := now / 1000;
                            Jwt.exp := now / 1000 + span |}).
    { rewrite Hclock.
      apply (Jwt.sign_verify C c k (JWT_EXPIRES_IN env) (now := now)); auto; lia. }
    split; [exact V|].
    destruct (Jwt.token_shape C _ _ _ _ Hsign) as [Hne Hsp].
    destruct (bearer_header_well_formed Hne Hsp) as [Hw Ht].
    rewrite authMiddleware_well_formed by assumption.
    rewrite Ht, Hk, V. reflexivity. }
  split; [|split].
  - intros c w w1 t Hsign. rewrite jwt_sign_run in Hsign.
    injection Hsign as Hsign <-. rewrite Hk in *.
    destruct (G c (clock w) t Hsign (logged (EvSign c (Some k) (JWT_EXPIRES_IN env)) w)
                eq_refl) as [V A].
    split; [|exact A]. rewrite jwt_verify_run. f_equal. exact V.
  - intros e p w w' r Hlogin. rewrite loginUser_bind in Hlogin.
    destruct (findByEmail e w) as [[[u|]|err] w1]; try discriminate.
    destruct (Bcrypt.compare bcrypt p (User.passwordHash u)); [|discriminate].
    destruct (Jwt.sign jwt _ _ _ _) as [t|err] eqn:Hsign; [|discriminate].
    injection Hlogin as <- <-. rewrite Hk in Hsign.
    apply (G _ _ _ Hsign). cbn. apply waited_clock.
  - intros Hdefault. unfold JWT_EXPIRES_IN in Hspan. rewrite Hdefault in Hspan.
    cbn in Hspan. rewrite (Jwt.one_hour C) in Hspan. congruence.
Qed.

Lemma issue_then_verify_witness :
  exists (r : LoginResult) (w' : World),
    loginUser StandIn.bcrypt StandIn.jwt StandIn.env "ana@x.com" "secret123"
      StandIn.anaWorld = (Return r, w') /\
    fst (authMiddleware StandIn.jwt StandIn.env
           (Some ("Bearer " ++ token r)) w')
    = Return (Next {| ReqUser.id := Some 1;
                      ReqUser.email := Some "ana@x.com" |}).
Proof.
  eexists. eexists. split; [reflexivity|].
  refine (proj1 (proj2 (@issue_then_verify StandIn.bcrypt StandIn.jwt
                          StandIn.env "s3cret" 3600
                          StandInFacts.jwt_contract eq_refl eq_refl eq_refl))
            "ana@x.com" "secret123" StandIn.anaWorld _ _ eq_refl).
Defined.

(* ------------------------------------------------------------------------- *)
(** ** What the handlers send back *)

(** The answer to a registration does not depend on the password: two
    requests that differ in the password only are answered alike. *)
Lemma register_ignores_password
  (bcrypt : Bcrypt.Lib) (n e p1 p2 : string) (w : World) :
  n <> EmptyString -> e <> EmptyString ->
  p1 <> EmptyString -> p2 <> EmptyString ->
  fst (register bcrypt {| body_name := Some n; body_email := Some e;
                          body_password := Some p1 |} w)
  = fst (register bcrypt {| body_name := Some n; body_email := Some e;
                            body_password := Some p2 |} w).
Proof.
  intros Hn He H1 H2. rewrite !register_run by assumption.
  rewrite !registerUser_bind, findByEmail_run.
  destruct (hd_error _) as [r|]; [reflexivity|]. cbn [option_map].
  rewrite !bcrypt_hash_run.
  set (w1 := logged (EvQuery (SelectByEmail e)) (waited w)).
  set (h1 := Bcrypt.hash bcrypt p1 10 _). set (h2 := Bcrypt.hash bcrypt p2 10 _).
  match goal with
  | |- fst (match (match createUser n e h1 ?a with _ => _ end) with _ => _ end)
       = fst (match (match createUser n e h2 ?b with _ => _ end) with _ => _ end) =>
      pose proof (createUser_fst n e h1 a) as F1;
      pose proof (createUser_fst n e h2 b) as F2;
      destruct (waited_same a b eq_refl eq_refl eq_refl eq_refl)
        as (Hu & Hi & Hc);
      destruct (createUser n e h1 a) as [[u1|e1] wa];
      destruct (createUser n e h2 b) as [[u2|e2] wb]
  end; cbn [fst] in *; rewrite Hu, Hi, Hc in F1;
    destruct (existsb (emailOf e) _); try congruence.
  - injection F1 as ->. injection F2 as ->. reflexivity.
Qed.

(** C7.  Whenever the service returns, the handler's body is built from the
    safe fields only: [register] and [me] answer the account view (id, name,
    email, createdAt), [login] answers the token and id, name and email of
    the account.  None of the three bodies has a field for the password or
    its digest, although the object the service returned carries the
    digest, and the answer to a registration is the same whatever the
    password. *)
Theorem responses_hide_credentials
  (bcrypt : Bcrypt.Lib) (jwt : Jwt.Lib) (env : ProcessEnv.t) :
  (forall (n e p : string) (w w' : World) (u : User.t),
     n <> EmptyString -> e <> EmptyString -> p <> EmptyString ->
     registerUser bcrypt n e p w = (Return u, w') ->
     exists resp,
       register bcrypt {| body_name := Some n; body_email := Some e;
                          body_password := Some p |} w = (Return resp, w') /\
       status resp = 201 /\
       body resp = accountView u /\
       Js.keys (body resp) = safeFields /\
       hidesCredentials (body resp) = true) /\
  (forall (e p : string) (w w' : World) (r : LoginResult),
     e <> EmptyString -> p <> EmptyString ->
     loginUser bcrypt jwt env e p w = (Return r, w') ->
     exists resp,
       login bcrypt jwt env (Some e) (Some p) w = (Return resp, w') /\
       status resp = 200 /\
       body resp = Js.JObj [("token", Js.JStr (token r));
                            ("user", loginView (user r))] /\
       incl (Js.keys (loginView (user r))) safeFields /\
       hidesCredentials (body resp) = true) /\
  (forall (requser : ReqUser.t) (w w' : World) (u : User.t),
     getProfile (ReqUser.id requser) w = (Return u, w') ->
     exists resp,
       me requser w = (Return resp, w') /\
       status resp = 200 /\
       body resp = accountView u /\
       Js.keys (body resp) = safeFields /\
       hidesCredentials (body resp) = true) /\
  (forall (n e p1 p2 : string) (w : World),
     n <> EmptyString -> e <> EmptyString ->
     p1 <> EmptyString -> p2 <> EmptyString ->
     fst (register bcrypt {| body_name := Some n; body_email := Some e;
                             body_password := Some p1 |} w)
     = fst (register bcrypt {| body_name := Some n; body_email := Some e;
                               body_password := Some p2 |} w)).
Proof.
  split; [|split; [|split]]; [| | |apply register_ignores_password].
  - intros n e p w w' u Hn He Hp Hrun. eexists.
    rewrite register_run, Hrun by assumption.
    split; [reflexivity|]. repeat split.
  - intros e p w w' r He Hp Hrun. eexists.
    rewrite login_run, Hrun by assumption.
    split; [reflexivity|]. repeat split.
    intros x Hx. cbn in *. tauto.
  - intros requser w w' u Hrun. eexists.
    rewrite me_run, Hrun.
    split; [reflexivity|]. repeat split.
Qed.

Lemma responses_hide_credentials_witness :
  exists resp,
    fst (register StandIn.bcrypt StandIn.anaBody StandIn.emptyWorld)
    = Return resp /\
    body resp
    = Js.JObj [("id", Js.JNum 1); ("name", Js.JStr "Ana");
               ("email", Js.JStr "ana@x.com"); ("createdAt", Js.JNum 5000)] /\
    hidesCredentials (body resp) = true.
Proof.
  destruct (proj1 (responses_hide_credentials StandIn.bcrypt StandIn.jwt
                     StandIn.env)
              "Ana" "ana@x.com" "secret123" StandIn.emptyWorld
              (snd (registerUser StandIn.bcrypt "Ana" "ana@x.com" "secret123"
                      StandIn.emptyWorld))
              (mapRow {| id := 1; name := "Ana"; email := "ana@x.com";
                         password_hash := "00000000secret123";
                         created_at := 5000 |}))
    as (resp & Hrun & _ & Hbody & _ & Hhide); try discriminate; [reflexivity|].
  exists resp. split; [|split].
  - change StandIn.anaBody
      with {| body_name := Some "Ana"; body_email := Some "ana@x.com";
              body_password := Some "secret123" |}.
    now rewrite Hrun.
  - exact Hbody.
  - exact Hhide.
Defined.

(** Rows matching the lookup carry the email looked up. *)
Lemma findByEmail_email (e : string) (w w1 : World) (u : User.t) :
  findByEmail e w = (Return (Some u), w1) -> User.email u = e.
Proof.
  rewrite findByEmail_run. intros [= H _].
  destruct (filter (emailOf e) (users (waited w))) as [|r rest] eqn:F;
    [discriminate|].
  injection H as <-.
  assert (I : In r (filter (emailOf e) (users (waited w)))) by (rewrite F; now left).
  apply filter_In in I. destruct I as [_ I]. unfold emailOf in I.
  now apply String.eqb_eq in I.
Qed.

(** C9, as the code has it.  A successful login answers 200 with exactly two
    fields, the token the service returned and [user]; [user] has exactly
    the fields id, name and email of the account with the given email.
    It has no [createdAt], unlike the view answered by [register] and [me],
    and no field for the digest. *)
Theorem login_response_shape
  (bcrypt : Bcrypt.Lib) (jwt : Jwt.Lib) (env : ProcessEnv.t)
  (e p : string) (w w' : World) (r : LoginResult) :
  e <> EmptyString -> p <> EmptyString ->
  loginUser bcrypt jwt env e p w = (Return r, w') ->
  exists resp,
    login bcrypt jwt env (Some e) (Some p) w = (Return resp, w') /\
    status resp = 200 /\
    Js.keys (body resp) = ["token"; "user"] /\
    Js.field "token" (body resp) = Some (Js.JStr (token r)) /\
    Js.field "user" (body resp)
    = Some (Js.JObj [("id", Js.JNum (User.id (user r)));
                     ("name", Js.JStr (User.name (user r)));
                     ("email", Js.JStr e)]) /\
    Js.mentionsKey "createdAt" (body resp) = false /\
    Js.mentionsKey "passwordHash" (body resp) = false.
Proof.
  intros He Hp Hrun. eexists. rewrite login_run, Hrun by assumption.
  split; [reflexivity|].
  assert (Hmail : User.email (user r) = e).
  { rewrite loginUser_bind in Hrun.
    destruct (findByEmail e w) as [[[u|]|err] w1] eqn:F; try discriminate.
    apply findByEmail_email in F.
    destruct (Bcrypt.compare bcrypt p (User.passwordHash u)); [|discriminate].
    destruct (Jwt.sign jwt _ _ _ _); [|discriminate].
    injection Hrun as <- _. exact F. }
  cbn. rewrite Hmail. repeat split.
Qed.

Lemma login_response_shape_witness :
  exists resp,
    fst (login StandIn.bcrypt StandIn.jwt StandIn.env
           (Some "ana@x.com") (Some "secret123") StandIn.anaWorld)
    = Return resp /\
    Js.field "user" (body resp)
    = Some (Js.JObj [("id", Js.JNum 1); ("name", Js.JStr "Ana");
                     ("email", Js.JStr "ana@x.com")]).
Proof.
  destruct (@login_response_shape StandIn.bcrypt StandIn.jwt StandIn.env
              "ana@x.com" "secret123" StandIn.anaWorld
              (snd (loginUser StandIn.bcrypt StandIn.jwt StandIn.env
                      "ana@x.com" "secret123" StandIn.anaWorld))
              {| token := "c11001110c11001100c11000110c01001110c10100110c00101110.p.c10000110c01110110c10000110c00000010c00011110c01110100c11000110c11110110c10110110.p10.p10101000011.";
                 user := mapRow {| id := 1; name := "Ana";
                                   email := "ana@x.com";
                                   password_hash := "00000000secret123";
                                   created_at := 5000 |} |})
    as (resp & Hrun & _ & _ & _ & Huser & _); try discriminate; [reflexivity|].
  exists resp. split; [now rewrite Hrun|exact Huser].
Defined.

(** C9 fails as stated: after Ana has registered, her login succeeds and
    the [user] object of the response has the fields id, name and email
    only; [createdAt], which [register] answered for the same account, is
    not among them. *)
Lemma login_view_lacks_createdAt :
  exists resp view,
    fst (login StandIn.bcrypt StandIn.jwt StandIn.env
           (Some "ana@x.com") (Some "secret123") StandIn.anaWorld)
    = Return resp /\
    status resp = 200 /\
    Js.field "user" (body resp) = Some view /\
    Js.keys view = ["id"; "name"; "email"] /\
    Js.field "createdAt" view = None /\
    Js.keys view <> safeFields.
Proof.
  eexists. eexists. split; [reflexivity|].
  split; [reflexivity|]. split; [reflexivity|].
  split; [reflexivity|]. split; [reflexivity|]. discriminate.
Qed.

Section GenericRuns.

Variable q : Sql -> M QueryResult.
Variable h : string -> Z -> M string.
Variable c : string -> string -> M bool.
Variable s : Claims -> option string -> string -> M string.
Variable env : ProcessEnv.t.

Lemma generic_register_run (n e p : string) (w : World) :
  n <> EmptyString -> e <> EmptyString -> p <> EmptyString ->
  Generic.register q h
    {| body_name := Some n; body_email := Some e; body_password := Some p |} w
  = match Generic.registerUser q h n e p w with
    | (Return u, w') =>
        (Return {| status := 201;
                   body := Js.JObj [("id", Js.JNum (User.id u));
                                    ("name", Js.JStr (User.name u));
                                    ("email", Js.JStr (User.email u));
                                    ("createdAt", Js.JNum (User.createdAt u))] |},
         w')
    | (Throw err, w') => (Return (errorResponse err), w')
    end.
Proof.
  intros Hn He Hp. unfold Generic.register, tryCatch.
  cbn [body_name body_email body_password].
  rewrite !truthy_Some, !str_Some by assumption. cbn [negb orb].
  unfold bind. destruct (Generic.registerUser q h n e p w) as [[u|err] w'];
    reflexivity.
Qed.

Lemma generic_login_run (e p : string) (w : World) :
  e <> EmptyString -> p <> EmptyString ->
  Generic.login q c s env (Some e) (Some p) w
  = match Generic.loginUser q c s env e p w with
    | (Return r, w') =>
        (Return {| status := 200;
                   body := Js.JObj [("token", Js.JStr (token r));
                                    ("user",
                                     Js.JObj [("id", Js.JNum (User.id (user r)));
                                              ("name", Js.JStr (User.name (user r)));
                                              ("email", Js.JStr (User.email (user r)))])] |},
         w')
    | (Throw err, w') => (Return (errorResponse err), w')
    end.
Proof.
  intros He Hp. unfold Generic.login, tryCatch.
  rewrite !truthy_Some, !str_Some by assumption. cbn [negb orb].
  unfold bind. destruct (Generic.loginUser q c s env e p w) as [[r|err] w'];
    reflexivity.
Qed.

Lemma generic_me_run (requser : ReqUser.t) (w : World) :
  Generic.me q requser w
  = match Generic.getProfile q (ReqUser.id requser) w with
    | (Return u, w') =>
        (Return {| status := 200;
                   body := Js.JObj [("id", Js.JNum (User.id u));
                                    ("name", Js.JStr (User.name u));
                                    ("email", Js.JStr (User.email u));
                                    ("createdAt", Js.JNum (User.createdAt u))] |},
         w')
    | (Throw err, w') => (Return (errorResponse err), w')
    end.
Proof.
  unfold Generic.me, tryCatch, bind.
  destruct (Generic.getProfile q (ReqUser.id requser) w) as [[u|err] w'];
    reflexivity.
Qed.

(** An error of the driver on a lookup is the error of the lookup. *)
Lemma generic_findByEmail_throws (e : string) (w : World) (err : Js.Error) :
  fst (q (SelectByEmail e) w) = Throw err ->
  fst (Generic.findByEmail q e w) = Throw err.
Proof.
  unfold Generic.findByEmail, bind.
  destruct (q (SelectByEmail e) w) as [[r|err'] w1]; cbn [fst];
    [discriminate|intros [= ->]; reflexivity].
Qed.

Lemma generic_findById_throws (i : option Z) (w : World) (err : Js.Error) :
  fst (q (SelectById i) w) = Throw err ->
  fst (Generic.findById q i w) = Throw err.
Proof.
  unfold Generic.findById, bind.
  destruct (q (SelectById i) w) as [[r|err'] w1]; cbn [fst];
    [discriminate|intros [= ->]; reflexivity].
Qed.

(** The services catch nothing: what a lookup, the hashing or the
    comparison throws is what the service throws. *)
Lemma generic_registerUser_lookup_throws (n e p : string) (w : World)
  (err : Js.Error) :
  fst (Generic.findByEmail q e w) = Throw err ->
  fst (Generic.registerUser q h n e p w) = Throw err.
Proof.
  unfold Generic.registerUser, bind.
  destruct (Generic.findByEmail q e w) as [[u|err'] w1]; cbn [fst];
    [discriminate|intros [= ->]; reflexivity].
Qed.

Lemma generic_registerUser_hash_throws (n e p : string) (w : World)
  (err : Js.Error) :
  fst (Generic.findByEmail q e w) = Return None ->
  fst (h p 10 (snd (Generic.findByEmail q e w))) = Throw err ->
  fst (Generic.registerUser q h n e p w) = Throw err.
Proof.
  unfold Generic.registerUser, bind.
  destruct (Generic.findByEmail q e w) as [[[u|]|err'] w1]; cbn [fst snd];
    try discriminate.
  intros _. destruct (h p 10 w1) as [[d|err'] w2]; cbn [fst];
    [discriminate|intros [= ->]; reflexivity].
Qed.

Lemma generic_registerUser_insert_throws (n e p d : string) (w w2 : World)
  (err : Js.Error) :
  fst (Generic.findByEmail q e w) = Return None ->
  h p 10 (snd (Generic.findByEmail q e w)) = (Return d, w2) ->
  fst (q (InsertUser n e d) w2) = Throw err ->
  fst (Generic.registerUser q h n e p w) = Throw err.
Proof.
  unfold Generic.registerUser, Generic.createUser, bind.
  destruct (Generic.findByEmail q e w) as [[[u|]|err'] w1]; cbn [fst snd];
    try discriminate.
  intros _ ->. destruct (q (InsertUser n e d) w2) as [[r|err'] w3]; cbn [fst];
    [discriminate|intros [= ->]; reflexivity].
Qed.

Lemma generic_loginUser_lookup_throws (e p : string) (w : World)
  (err : Js.Error) :
  fst (Generic.findByEmail q e w) = Throw err ->
  fst (Generic.loginUser q c s env e p w) = Throw err.
Proof.
  unfold Generic.loginUser, bind.
  destruct (Generic.findByEmail q e w) as [[u|err'] w1]; cbn [fst];
    [discriminate|intros [= ->]; reflexivity].
Qed.

Lemma generic_loginUser_compare_throws (e p : string) (u : User.t) (w : World)
  (err : Js.Error) :
  fst (Generic.findByEmail q e w) = Return (Some u) ->
  fst (c p (User.passwordHash u) (snd (Generic.findByEmail q e w))) = Throw err ->
  fst (Generic.loginUser q c s env e p w) = Throw err.
Proof.
  unfold Generic.loginUser, bind.
  destruct (Generic.findByEmail q e w) as [[[u'|]|err'] w1]; cbn [fst snd];
    try discriminate.
  intros [= ->]. destruct (c p (User.passwordHash u) w1) as [[b|err'] w2];
    cbn [fst]; [discriminate|intros [= ->]; reflexivity].
Qed.

Lemma generic_getProfile_lookup_throws (i : option Z) (w : World)
  (err : Js.Error) :
  fst (Generic.findById q i w) = Throw err ->
  fst (Generic.getProfile q i w) = Throw err.
Proof.
  unfold Generic.getProfile, bind.
  destruct (Generic.findById q i w) as [[u|err'] w1]; cbn [fst];
    [discriminate|intros [= ->]; reflexivity].
Qed.

End GenericRuns.

(** C10.  When the service throws, each handler answers with the status
    [error.statusCode || 500] and the body [{ message: error.message }]: the
    error's own status when it has one (a number other than 0), 500 when it
    has none, and the message verbatim in both cases.  This holds over any
    database driver and any [bcrypt] and [jsonwebtoken], whatever they
    throw; and the services catch nothing, so an error of the driver on a
    lookup or on the insert, and an error of the hashing or of the
    comparison, is the error the service throws and the handler reports.
    The handlers of the modelled table are these handlers, so the driver's
    duplicate-key error reaches the client as status 500 with the driver's
    text. *)
Theorem handlers_report_service_errors
  (bcrypt : Bcrypt.Lib) (jwt : Jwt.Lib) (env : ProcessEnv.t) (err : Js.Error) :
  (forall (n e p : string) (w : World),
     n <> EmptyString -> e <> EmptyString -> p <> EmptyString ->
     fst (registerUser bcrypt n e p w) = Throw err ->
     fst (register bcrypt {| body_name := Some n; body_email := Some e;
                             body_password := Some p |} w)
     = Return (errorResponse err)) /\
  (forall (e p : string) (w : World),
     e <> EmptyString -> p <> EmptyString ->
     fst (loginUser bcrypt jwt env e p w) = Throw err ->
     fst (login bcrypt jwt env (Some e) (Some p) w)
     = Return (errorResponse err)) /\
  (forall (requser : ReqUser.t) (w : World),
     fst (getProfile (ReqUser.id requser) w) = Throw err ->
     fst (me requser w) = Return (errorResponse err)) /\
  body (errorResponse err) = Js.JObj [("message", Js.JStr (Js.message err))] /\
  (forall n : Z,
     Js.statusCode err = Some n -> n <> 0 -> status (errorResponse err) = n) /\
  (Js.statusCode err = None -> status (errorResponse err) = 500) /\
  errorResponse uniqueViolation
  = {| status := 500;
       body := Js.JObj
         [("message",
           Js.JStr "duplicate key value violates unique constraint users_email_key")] |} /\
  (forall (q : Sql -> M QueryResult) (h : string -> Z -> M string)
          (c : string -> string -> M bool)
          (s : Claims -> option string -> string -> M string),
     (forall (n e p : string) (w : World),
        n <> EmptyString -> e <> EmptyString -> p <> EmptyString ->
        fst (Generic.registerUser q h n e p w) = Throw err ->
        fst (Generic.register q h
               {| body_name := Some n; body_email := Some e;
                  body_password := Some p |} w)
        = Return (errorResponse err)) /\
     (forall (e p : string) (w : World),
        e <> EmptyString -> p <> EmptyString ->
        fst (Generic.loginUser q c s env e p w) = Throw err ->
        fst (Generic.login q c s env (Some e) (Some p) w)
        = Return (errorResponse err)) /\
     (forall (requser : ReqUser.t) (w : World),
        fst (Generic.getProfile q (ReqUser.id requser) w) = Throw err ->
        fst (Generic.me q requser w) = Return (errorResponse err)) /\
     (forall (n e p : string) (w : World),
        fst (q (SelectByEmail e) w) = Throw err ->
        fst (Generic.registerUser q h n e p w) = Throw err /\
        fst (Generic.loginUser q c s env e p w) = Throw err) /\
     (forall (i : option Z) (w : World),
        fst (q (SelectById i) w) = Throw err ->
        fst (Generic.getProfile q i w) = Throw err) /\
     (forall (n e p : string) (w : World),
        fst (Generic.findByEmail q e w) = Return None ->
        fst (h p 10 (snd (Generic.findByEmail q e w))) = Throw err ->
        fst (Generic.registerUser q h n e p w) = Throw err) /\
     (forall (n e p d : string) (w w2 : World),
        fst (Generic.findByEmail q e w) = Return None ->
        h p 10 (snd (Generic.findByEmail q e w)) = (Return d, w2) ->
        fst (q (InsertUser n e d) w2) = Throw err ->
        fst (Generic.registerUser q h n e p w) = Throw err) /\
     (forall (e p : string) (u : User.t) (w : World),
        fst (Generic.findByEmail q e w) = Return (Some u) ->
        fst (c p (User.passwordHash u) (snd (Generic.findByEmail q e w)))
        = Throw err ->
        fst (Generic.loginUser q c s env e p w) = Throw err)) /\
  register bcrypt = Generic.register query (bcrypt_hash bcrypt) /\
  login bcrypt jwt env
  = Generic.login query (bcrypt_compare bcrypt) (jwt_sign jwt) env /\
  me = Generic.me query.
Proof.
  repeat match goal with |- _ /\ _ => split end.
  - intros n e p w Hn He Hp Hrun. rewrite register_run by assumption.
    destruct (registerUser bcrypt n e p w) as [[u|err'] w']; cbn [fst] in *;
      congruence.
  - intros e p w He Hp Hrun. rewrite login_run by assumption.
    destruct (loginUser bcrypt jwt env e p w) as [[r|err'] w']; cbn [fst] in *;
      congruence.
  - intros requser w Hrun. rewrite me_run.
    destruct (getProfile (ReqUser.id requser) w) as [[u|err'] w']; cbn [fst] in *;
      congruence.
  - reflexivity.
  - intros n Hs Hn. unfold errorResponse. cbn. rewrite Hs. cbn.
    destruct (Z.eqb_spec n 0); [contradiction|reflexivity].
  - intros Hs. unfold errorResponse. cbn. now rewrite Hs.
  - reflexivity.
  - intros q h c s. repeat match goal with |- _ /\ _ => split end.
    + intros n e p w Hn He Hp Hrun. rewrite generic_register_run by assumption.
      destruct (Generic.registerUser q h n e p w) as [[u|err'] w'];
        cbn [fst] in *; congruence.
    + intros e p w He Hp Hrun. rewrite generic_login_run by assumption.
      destruct (Generic.loginUser q c s env e p w) as [[r|err'] w'];
        cbn [fst] in *; congruence.
    + intros requser w Hrun. rewrite generic_me_run.
      destruct (Generic.getProfile q (ReqUser.id requser) w) as [[u|err'] w'];
        cbn [fst] in *; congruence.
    + intros n e p w Hq. split.
      * apply generic_registerUser_lookup_throws.
        now apply generic_findByEmail_throws.
      * apply generic_loginUser_lookup_throws.
        now apply generic_findByEmail_throws.
    + intros i w H. apply generic_getProfile_lookup_throws.
      now apply generic_findById_throws.
    + intros n e p w. apply generic_registerUser_hash_throws.
    + intros n e p d w w2. apply generic_registerUser_insert_throws.
    + intros e p u w. apply generic_loginUser_compare_throws.
  - reflexivity.
  - reflexivity.
  - reflexivity.
Qed.

Lemma handlers_report_service_errors_witness :
  fst (register StandIn.bcrypt StandIn.anaBody StandIn.raceWorld)
  = Return (errorResponse uniqueViolation) /\
  fst (me {| ReqUser.id := Some 7; ReqUser.email := None |} StandIn.anaWorld)
  = Return {| status := 404; body := messageBody "Usuario no encontrado" |} /\
  status (errorResponse userNotFound) = 404 /\
  status (errorResponse uniqueViolation) = 500 /\
  fst (Generic.me FailingStandIn.query
         {| ReqUser.id := Some 1; ReqUser.email := None |} StandIn.anaWorld)
  = Return {| status := 500;
              body := messageBody "connect ECONNREFUSED 127.0.0.1:5432" |} /\
  fst (Generic.register query FailingStandIn.bcrypt_hash StandIn.anaBody
         StandIn.emptyWorld)
  = Return {| status := 500;
              body := messageBody "data and salt arguments required" |}.
Proof.
  pose proof (handlers_report_service_errors StandIn.bcrypt StandIn.jwt
                StandIn.env uniqueViolation) as (U1 & _ & _ & _ & _ & U6 & _).
  pose proof (handlers_report_service_errors StandIn.bcrypt StandIn.jwt
                StandIn.env userNotFound) as (_ & _ & N3 & _ & N5 & _).
  pose proof (handlers_report_service_errors StandIn.bcrypt StandIn.jwt
                StandIn.env FailingStandIn.connectionRefused)
    as (_ & _ & _ & _ & _ & _ & _ & G & _).
  pose proof (handlers_report_service_errors StandIn.bcrypt StandIn.jwt
                StandIn.env FailingStandIn.hashFailure)
    as (_ & _ & _ & _ & _ & _ & _ & H & _).
  split; [|split; [|split; [|split; [|split]]]].
  - apply U1; try discriminate. reflexivity.
  - apply N3. reflexivity.
  - apply (N5 404); [reflexivity|discriminate].
  - apply U6. reflexivity.
  - destruct (G FailingStandIn.query (bcrypt_hash StandIn.bcrypt)
                (bcrypt_compare StandIn.bcrypt) (jwt_sign StandIn.jwt))
      as (_ & _ & G3 & _).
    apply (G3 {| ReqUser.id := Some 1; ReqUser.email := None |}
              StandIn.anaWorld).
    reflexivity.
  - destruct (H query FailingStandIn.bcrypt_hash
                (bcrypt_compare StandIn.bcrypt) (jwt_sign StandIn.jwt))
      as (H1 & _).
    apply (H1 "Ana" "ana@x.com" "secret123" StandIn.emptyWorld);
      try discriminate.
    reflexivity.
Defined.

(* ------------------------------------------------------------------------- *)
(** ** Further properties of the user handlers *)

Lemma filter_none {A} (f : A -> bool) (l : list A) :
  existsb f l = false -> filter f l = [].
Proof.
  induction l as [|a l IH]; simpl; [reflexivity|].
  destruct (f a); simpl; [discriminate|exact IH].
Qed.

(** X1.  A request with a missing or empty field is answered 400 "Faltan datos
    requeridos" by [register] and by [login] before anything else happens:
    no query, no hashing, the world is as it was. *)
Theorem handlers_reject_missing_data
  (bcrypt : Bcrypt.Lib) (jwt : Jwt.Lib) (env : ProcessEnv.t) :
  (forall (b : RegisterBody) (w : World),
     Js.truthy (body_name b) = false \/ Js.truthy (body_email b) = false
     \/ Js.truthy (body_password b) = false ->
     register bcrypt b w
     = (Return {| status := 400; body := messageBody "Faltan datos requeridos" |},
        w)) /\
  (forall (e p : option string) (w : World),
     Js.truthy e = false \/ Js.truthy p = false ->
     login bcrypt jwt env e p w
     = (Return {| status := 400; body := messageBody "Faltan datos requeridos" |},
        w)).
Proof.
  split.
  - intros b w H. unfold register, tryCatch.
    destruct H as [H|[H|H]]; rewrite H; cbn [negb orb];
      rewrite ?orb_true_r; reflexivity.
  - intros e p w H. unfold login, tryCatch.
    destruct H as [H|H]; rewrite H; cbn [negb orb];
      rewrite ?orb_true_r; reflexivity.
Qed.

Lemma handlers_reject_missing_data_witness :
  register StandIn.bcrypt
    {| body_name := Some "Ana"; body_email := Some "ana@x.com";
       body_password := Some "" |} StandIn.anaWorld
  = (Return missingData, StandIn.anaWorld) /\
  login StandIn.bcrypt StandIn.jwt StandIn.env None (Some "secret123")
    StandIn.anaWorld
  = (Return missingData, StandIn.anaWorld).
Proof.
  split.
  - apply (handlers_reject_missing_data StandIn.bcrypt StandIn.jwt StandIn.env).
    right. right. reflexivity.
  - apply (handlers_reject_missing_data StandIn.bcrypt StandIn.jwt StandIn.env).
    left. reflexivity.
Defined.

(** With nobody else connected and the email not in the table, the three
    calls of [registerUser] go through. *)
Lemma registerUser_fresh
  (bcrypt : Bcrypt.Lib) (n e p : string) (w : World) :
  others w = [] -> existsb (emailOf e) (users w) = false ->
  registerUser bcrypt n e p w
  = (Return {| User.id := nextId w; User.name := n; User.email := e;
               User.passwordHash := Bcrypt.hash bcrypt p 10 (entropy w);
               User.createdAt := clock w |},
     {| users := (users w
                  ++ [{| id := nextId w; name := n; email := e;
                         password_hash := Bcrypt.hash bcrypt p 10 (entropy w);
                         created_at := clock w |}])%list;
        nextId := nextId w + 1; clock := clock w;
        entropy := N.succ (entropy w); others := [];
        trace := EvQuery (InsertUser n e (Bcrypt.hash bcrypt p 10 (entropy w)))
                 :: EvHash p 10 :: EvQuery (SelectByEmail e) :: trace w |}).
Proof.
  intros Hq Hf.
  rewrite registerUser_bind, findByEmail_run, (waited_idle w Hq).
  rewrite (filter_none _ _ Hf). cbn [hd_error option_map].
  rewrite bcrypt_hash_run, (waited_idle (logged _ w) Hq).
  unfold createUser, query, bind. rewrite interleave_run, waited_idle by exact Hq.
  cbn -[existsb]. rewrite Hf, Hq. reflexivity.
Qed.

(** X2.  A registration with a new email, nobody else connected: the account gets
    the next id and the current time, the table gains exactly one row, at
    the end, holding the digest [bcrypt.hash(password, 10)], and the calls
    made are the lookup, the hashing and the insert, in this order. *)
Theorem register_fresh_email
  (bcrypt : Bcrypt.Lib) (n e p : string) (w : World) :
  others w = [] -> existsb (emailOf e) (users w) = false ->
  exists (u : User.t) (row : Row) (w' : World),
    registerUser bcrypt n e p w = (Return u, w') /\
    u = mapRow row /\
    users w' = (users w ++ [row])%list /\
    id row = nextId w /\ nextId w' = nextId w + 1 /\
    name row = n /\ email row = e /\ created_at row = clock w /\
    password_hash row = Bcrypt.hash bcrypt p 10 (entropy w) /\
    trace w' = EvQuery (InsertUser n e (password_hash row))
               :: EvHash p 10 :: EvQuery (SelectByEmail e) :: trace w.
Proof.
  intros Hq Hf. eexists.
  exists {| id := nextId w; name := n; email := e;
            password_hash := Bcrypt.hash bcrypt p 10 (entropy w);
            created_at := clock w |}.
  eexists.
  split; [apply (registerUser_fresh bcrypt n e p w Hq Hf)|].
  repeat (split; [reflexivity|]). reflexivity.
Qed.

Lemma register_fresh_email_witness :
  exists (u : User.t) (w' : World),
    registerUser StandIn.bcrypt "Bob" "bob@x.com" "hunter2" StandIn.anaWorld
    = (Return u, w') /\
    User.id u = 2 /\ List.length (users w') = 2%nat.
Proof.
  destruct (register_fresh_email StandIn.bcrypt "Bob" "bob@x.com" "hunter2"
              StandIn.anaWorld eq_refl eq_refl)
    as (u & row & w' & Hrun & Hu & Hus & Hid & _).
  exists u, w'. split; [exact Hrun|]. split.
  - rewrite Hu. cbn. exact Hid.
  - rewrite Hus, length_app. reflexivity.
Defined.

Lemma fresh_id (n : Z) (l : list Row) :
  Forall (fun r => id r < n) l -> existsb (idOf (Some n)) l = false.
Proof.
  induction 1 as [|r l Hr _ IH]; simpl; [reflexivity|].
  rewrite IH, orb_false_r. apply Z.eqb_neq. lia.
Qed.

(** What a lookup finds right after a registration in a quiet table. *)
Lemma lookup_after_register
  (bcrypt : Bcrypt.Lib) (n e p : string) (w : World) (f : Row -> bool) :
  others w = [] -> existsb (emailOf e) (users w) = false ->
  existsb f (users w) = false ->
  f {| id := nextId w; name := n; email := e;
       password_hash := Bcrypt.hash bcrypt p 10 (entropy w);
       created_at := clock w |} = true ->
  hd_error (filter f (users (waited (snd (registerUser bcrypt n e p w)))))
  = Some {| id := nextId w; name := n; email := e;
            password_hash := Bcrypt.hash bcrypt p 10 (entropy w);
            created_at := clock w |}.
Proof.
  intros Hq Hf Hnone Hrow.
  rewrite (registerUser_fresh bcrypt n e p w Hq Hf). cbn [snd].
  rewrite waited_idle by reflexivity. cbn [users].
  rewrite filter_app, (filter_none _ _ Hnone). cbn. now rewrite Hrow.
Qed.

(** X3.  Insert, then look up: right after a registration with a new email, and
    nobody else connected, [findByEmail] on that email returns the account
    just created; so does [findById] on its id when every id in the table
    was below the serial. *)
Theorem register_then_lookup
  (bcrypt : Bcrypt.Lib) (n e p : string) (w : World) (u : User.t) (w' : World) :
  others w = [] -> existsb (emailOf e) (users w) = false ->
  registerUser bcrypt n e p w = (Return u, w') ->
  fst (findByEmail e w') = Return (Some u) /\
  (Forall (fun r => id r < nextId w) (users w) ->
   fst (findById (Some (User.id u)) w') = Return (Some u)).
Proof.
  intros Hq Hf Hrun.
  pose proof (registerUser_fresh bcrypt n e p w Hq Hf) as R.
  rewrite Hrun in R. injection R as Hu Hw.
  assert (W : w' = snd (registerUser bcrypt n e p w)) by now rewrite Hrun.
  split.
  - rewrite findByEmail_run, W.
    rewrite (lookup_after_register bcrypt n e p w (emailOf e) Hq Hf Hf).
    + now rewrite Hu.
    + unfold emailOf. cbn. apply String.eqb_refl.
  - intros Hids. rewrite findById_run, W, Hu. cbn [User.id].
    rewrite (lookup_after_register bcrypt n e p w (idOf (Some (nextId w)))
               Hq Hf (fresh_id Hids)).
    + reflexivity.
    + cbn. apply Z.eqb_refl.
Qed.

Lemma register_then_lookup_witness :
  exists (u : User.t) (w' : World),
    registerUser StandIn.bcrypt "Bob" "bob@x.com" "hunter2" StandIn.anaWorld
    = (Return u, w') /\
    fst (findByEmail "bob@x.com" w') = Return (Some u) /\
    fst (findById (Some 2) w') = Return (Some u).
Proof.
  do 2 eexists. split; [reflexivity|].
  destruct (@register_then_lookup StandIn.bcrypt "Bob" "bob@x.com" "hunter2"
              StandIn.anaWorld _ _ eq_refl eq_refl eq_refl) as [H1 H2].
  split; [exact H1|]. apply H2.
  repeat constructor.
Defined.

(** X4.  Register, then log in: after a registration with a new email, and nobody
    else connected, a login with the same email and password returns the
    signed token and the account just created, provided [bcrypt.compare]
    accepts the password against the digest [bcrypt.hash] made of it and
    [jwt.sign] returns. *)
Theorem register_then_login
  (bcrypt : Bcrypt.Lib) (jwt : Jwt.Lib) (env : ProcessEnv.t)
  (n e p t : string) (w w' : World) (u : User.t) :
  others w = [] -> existsb (emailOf e) (users w) = false ->
  registerUser bcrypt n e p w = (Return u, w') ->
  Bcrypt.compare bcrypt p (Bcrypt.hash bcrypt p 10 (entropy w)) = true ->
  Jwt.sign jwt {| claim_sub := nextId w; claim_email := e |}
    (ProcessEnv.JWT_SECRET env) (JWT_EXPIRES_IN env) (clock w) = Return t ->
  fst (loginUser bcrypt jwt env e p w') = Return {| token := t; user := u |}.
Proof.
  intros Hq Hf Hrun Hcmp Hsign.
  pose proof (registerUser_fresh bcrypt n e p w Hq Hf) as R.
  rewrite Hrun in R. injection R as Hu Hw.
  assert (W : w' = snd (registerUser bcrypt n e p w)) by now rewrite Hrun.
  rewrite loginUser_bind, findByEmail_run. rewrite W at 1.
  rewrite (lookup_after_register bcrypt n e p w (emailOf e) Hq Hf Hf)
    by (unfold emailOf; cbn; apply String.eqb_refl).
  cbn [option_map mapRow User.passwordHash User.id User.email
       password_hash id email].
  rewrite Hcmp. rewrite Hw at 1. cbn [logged logEvent snd clock].
  rewrite waited_clock, Hw. cbn [clock]. rewrite Hsign, Hu. reflexivity.
Qed.

Lemma register_then_login_witness :
  exists (t : string) (u : User.t) (w' : World),
    registerUser StandIn.bcrypt "Bob" "bob@x.com" "hunter2" StandIn.anaWorld
    = (Return u, w') /\
    fst (loginUser StandIn.bcrypt StandIn.jwt StandIn.env "bob@x.com" "hunter2" w')
    = Return {| token := t; user := u |}.
Proof.
  do 3 eexists. split; [reflexivity|].
  apply (@register_then_login StandIn.bcrypt StandIn.jwt StandIn.env
           "Bob" "bob@x.com" "hunter2" _ StandIn.anaWorld _ _
           eq_refl eq_refl eq_refl eq_refl eq_refl).
Defined.

(** X5.  Register, then read the profile: the profile of the id that [register]
    answered has exactly the body [register] answered, given a table with
    the email new, every id below the serial and nobody else connected. *)
Theorem register_then_profile
  (bcrypt : Bcrypt.Lib) (n e p : string) (w : World) (em : option string) :
  n <> EmptyString -> e <> EmptyString -> p <> EmptyString ->
  others w = [] -> existsb (emailOf e) (users w) = false ->
  Forall (fun r => id r < nextId w) (users w) ->
  exists (view : Js.Json) (w' : World),
    register bcrypt {| body_name := Some n; body_email := Some e;
                       body_password := Some p |} w
    = (Return {| status := 201; body := view |}, w') /\
    Js.field "id" view = Some (Js.JNum (nextId w)) /\
    fst (me {| ReqUser.id := Some (nextId w); ReqUser.email := em |} w')
    = Return {| status := 200; body := view |}.
Proof.
  intros Hn He Hp Hq Hf Hids. do 2 eexists.
  rewrite register_run by assumption.
  pose proof (registerUser_fresh bcrypt n e p w Hq Hf) as R.
  rewrite R. split; [reflexivity|]. split; [reflexivity|].
  rewrite me_run, getProfile_bind, findById_run. cbn [ReqUser.id].
  replace (mkWorld _ _ _ _ _ _) with (snd (registerUser bcrypt n e p w))
    by now rewrite R.
  rewrite (lookup_after_register bcrypt n e p w (idOf (Some (nextId w)))
             Hq Hf (fresh_id Hids)) by (cbn; apply Z.eqb_refl).
  reflexivity.
Qed.

Lemma register_then_profile_witness :
  exists (view : Js.Json) (w' : World),
    register StandIn.bcrypt StandIn.anaBody StandIn.emptyWorld
    = (Return {| status := 201; body := view |}, w') /\
    fst (me {| ReqUser.id := Some 1; ReqUser.email := None |} w')
    = Return {| status := 200; body := view |}.
Proof.
  destruct (@register_then_profile StandIn.bcrypt "Ana" "ana@x.com" "secret123"
              StandIn.emptyWorld None)
    as (view & w' & H1 & _ & H3);
    try discriminate; try reflexivity; [constructor|].
  exists view, w'. split; [exact H1|exact H3].
Defined.

(* ------------------------------------------------------------------------- *)
(** ** Properties kept along a run *)

Lemma preserves_ret {A} (P : World -> Prop) (a : A) : preserves P (ret a).
Proof. intros w H. exact H. Qed.

Lemma preserves_throw {A} (P : World -> Prop) (e : Js.Error) :
  preserves P (throw (A := A) e).
Proof. intros w H. exact H. Qed.

Lemma preserves_bind {A B} (P : World -> Prop) (m : M A) (k : A -> M B) :
  preserves P m -> (forall a, preserves P (k a)) -> preserves P (bind m k).
Proof.
  intros Hm Hk w H. unfold bind. specialize (Hm w H).
  destruct (m w) as [[a|e] w1]; cbn [snd] in *; [now apply Hk|exact Hm].
Qed.

Lemma preserves_tryCatch {A} (P : World -> Prop) (m : M A) (h : Js.Error -> M A) :
  preserves P m -> (forall e, preserves P (h e)) -> preserves P (tryCatch m h).
Proof.
  intros Hm Hh w H. unfold tryCatch. specialize (Hm w H).
  destruct (m w) as [[a|e] w1]; cbn [snd] in *; [exact Hm|now apply Hh].
Qed.

(* ------------------------------------------------------------------------- *)
(** ** What a login needs, and what it calls *)

(** X7.  A login succeeds only for the oldest account with the given email as the
    lookup finds it, only if [bcrypt.compare] accepted the password against
    that account's digest, and the token it returns is what [jwt.sign]
    made of that account's id and email. *)
Theorem login_sound
  (bcrypt : Bcrypt.Lib) (jwt : Jwt.Lib) (env : ProcessEnv.t)
  (e p : string) (w w' : World) (r : LoginResult) :
  loginUser bcrypt jwt env e p w = (Return r, w') ->
  exists row : Row,
    hd_error (filter (emailOf e) (users (waited w))) = Some row /\
    email row = e /\
    user r = mapRow row /\
    Bcrypt.compare bcrypt p (password_hash row) = true /\
    Jwt.sign jwt {| claim_sub := id row; claim_email := email row |}
      (ProcessEnv.JWT_SECRET env) (JWT_EXPIRES_IN env) (clock w)
    = Return (token r).
Proof.
  rewrite loginUser_bind. intros H.
  destruct (findByEmail e w) as [[[u|]|err] w1] eqn:F; try discriminate.
  pose proof (findByEmail_email _ _ F) as Hmail.
  rewrite findByEmail_run in F. injection F as Hu Hw1.
  destruct (hd_error _) as [row|] eqn:Hrow; [|discriminate].
  injection Hu as <-. exists row.
  cbn [mapRow User.passwordHash User.id User.email] in *.
  destruct (Bcrypt.compare bcrypt p (password_hash row)) eqn:Hcmp;
    [|discriminate].
  destruct (Jwt.sign jwt _ _ _ _) as [t|err] eqn:Hsign; [|discriminate].
  injection H as <- _. rewrite <- Hw1 in Hsign.
  cbn [logged logEvent snd clock] in Hsign. rewrite waited_clock in Hsign.
  repeat split; try assumption; reflexivity.
Qed.

Lemma login_sound_witness :
  exists row : Row,
    hd_error (filter (emailOf "ana@x.com") (users (waited StandIn.anaWorld)))
    = Some row /\
    Bcrypt.compare StandIn.bcrypt "secret123" (password_hash row) = true.
Proof.
  destruct (@login_sound StandIn.bcrypt StandIn.jwt StandIn.env
              "ana@x.com" "secret123" StandIn.anaWorld _ _ eq_refl)
    as (row & H1 & _ & _ & H4 & _).
  exists row. split; assumption.
Defined.

(** X8.  The two failures of a login answer alike but do not call alike: for an
    email the lookup does not find, the lookup is the only call, and the
    digest comparison is not made; for a password that does not match, the
    lookup and one comparison are made.  Neither signs a token. *)
Theorem login_failure_calls
  (bcrypt : Bcrypt.Lib) (jwt : Jwt.Lib) (env : ProcessEnv.t)
  (e p : string) (w : World) :
  (existsb (emailOf e) (users (waited w)) = false ->
   fst (loginUser bcrypt jwt env e p w) = Throw invalidCredentials /\
   trace (snd (loginUser bcrypt jwt env e p w))
   = EvQuery (SelectByEmail e) :: trace w) /\
  (forall row : Row,
     hd_error (filter (emailOf e) (users (waited w))) = Some row ->
     Bcrypt.compare bcrypt p (password_hash row) = false ->
     fst (loginUser bcrypt jwt env e p w) = Throw invalidCredentials /\
     trace (snd (loginUser bcrypt jwt env e p w))
     = EvCompare p (password_hash row) :: EvQuery (SelectByEmail e) :: trace w).
Proof.
  split.
  - intros Hnone. rewrite loginUser_bind, findByEmail_run.
    rewrite (filter_none _ _ Hnone). cbn. now rewrite waited_trace.
  - intros row Hrow Hcmp. rewrite loginUser_bind, findByEmail_run, Hrow.
    cbn [option_map mapRow User.passwordHash]. rewrite Hcmp.
    cbn. now rewrite !waited_trace.
Qed.

Lemma login_failure_calls_witness :
  trace (snd (loginUser StandIn.bcrypt StandIn.jwt StandIn.env
                "bob@x.com" "secret123" StandIn.anaWorld))
  = [EvQuery (SelectByEmail "bob@x.com")] /\
  trace (snd (loginUser StandIn.bcrypt StandIn.jwt StandIn.env
                "ana@x.com" "wrong" StandIn.anaWorld))
  = [EvCompare "wrong" "00000000secret123";
     EvQuery (SelectByEmail "ana@x.com")].
Proof.
  split.
  - apply (login_failure_calls StandIn.bcrypt StandIn.jwt StandIn.env
             "bob@x.com" "secret123" StandIn.anaWorld). reflexivity.
  - apply (proj2 (login_failure_calls StandIn.bcrypt StandIn.jwt StandIn.env
                    "ana@x.com" "wrong" StandIn.anaWorld)
             {| id := 1; name := "Ana"; email := "ana@x.com";
                password_hash := "00000000secret123"; created_at := 5000 |});
      reflexivity.
Defined.

Lemma interleave_quiet (us : list Row) (n : Z) :
  preserves (quietTable us n) interleave.
Proof.
  intros w H. unfold interleave. destruct H as (Hq & Hu & Hn).
  rewrite Hq. repeat split; assumption.
Qed.

Lemma select_quiet (us : list Row) (n : Z) (q : Sql) :
  isInsert q = false -> preserves (quietTable us n) (execSql q).
Proof. intros Hq w H. destruct q; [exact H|exact H|discriminate]. Qed.

Lemma interleave_inserts (l : list Sql) :
  preserves (fun w => inserts (trace w) = l) interleave.
Proof.
  intros w H. change (snd (interleave w)) with (waited w).
  now rewrite waited_trace.
Qed.

Lemma execSql_inserts (l : list Sql) (q : Sql) :
  preserves (fun w => inserts (trace w) = l) (execSql q).
Proof.
  intros w H. destruct q as [e|i|n e h]; [exact H|exact H|].
  cbn. now destruct (existsb (emailOf e) (users w)).
Qed.

Ltac read_only :=
  repeat first
    [ apply interleave_quiet
    | apply select_quiet; reflexivity
    | apply interleave_inserts
    | apply execSql_inserts
    | apply preserves_ret
    | apply preserves_throw
    | apply preserves_bind; [|intros ?]
    | apply preserves_tryCatch; [|intros ?]
    | match goal with
      | |- preserves _ (if ?c then _ else _) => destruct c
      | |- preserves _ (match ?x with _ => _ end) => destruct x
      end
    | (intros ? H; exact H) ].

(** X9.  Logging in and reading a profile do not write: neither sends an INSERT,
    and with nobody else connected the table and its serial are afterwards
    what they were. *)
Theorem reads_do_not_write
  (bcrypt : Bcrypt.Lib) (jwt : Jwt.Lib) (env : ProcessEnv.t) (w : World) :
  (forall e p : string,
     inserts (trace (snd (loginUser bcrypt jwt env e p w))) = inserts (trace w) /\
     (others w = [] ->
      users (snd (loginUser bcrypt jwt env e p w)) = users w /\
      nextId (snd (loginUser bcrypt jwt env e p w)) = nextId w)) /\
  (forall i : option Z,
     inserts (trace (snd (getProfile i w))) = inserts (trace w) /\
     (others w = [] ->
      users (snd (getProfile i w)) = users w /\
      nextId (snd (getProfile i w)) = nextId w)).
Proof.
  split.
  - intros e p. split.
    + refine ((_ : preserves (fun w0 => inserts (trace w0) = inserts (trace w))
                     (loginUser bcrypt jwt env e p)) w eq_refl).
      unfold loginUser, findByEmail, query, bcrypt_compare, jwt_sign, firstRow,
        logEvent.
      read_only.
    + intros Hq.
      assert (Q : quietTable (users w) (nextId w)
                    (snd (loginUser bcrypt jwt env e p w))).
      { refine ((_ : preserves (quietTable (users w) (nextId w))
                       (loginUser bcrypt jwt env e p)) w _);
          [|now repeat split].
        unfold loginUser, findByEmail, query, bcrypt_compare, jwt_sign,
          firstRow, logEvent.
        read_only. }
      destruct Q as (_ & Hu & Hn). now split.
  - intros i. split.
    + refine ((_ : preserves (fun w0 => inserts (trace w0) = inserts (trace w))
                     (getProfile i)) w eq_refl).
      unfold getProfile, findById, query, firstRow, logEvent. read_only.
    + intros Hq.
      assert (Q : quietTable (users w) (nextId w) (snd (getProfile i w))).
      { refine ((_ : preserves (quietTable (users w) (nextId w))
                       (getProfile i)) w _); [|now repeat split].
        unfold getProfile, findById, query, firstRow, logEvent. read_only. }
      destruct Q as (_ & Hu & Hn). now split.
Qed.

Lemma reads_do_not_write_witness :
  users (snd (loginUser StandIn.bcrypt StandIn.jwt StandIn.env
                "ana@x.com" "secret123" StandIn.anaWorld))
  = users StandIn.anaWorld /\
  users (snd (getProfile (Some 1) StandIn.anaWorld)) = users StandIn.anaWorld.
Proof.
  split.
  - apply (proj1 (reads_do_not_write StandIn.bcrypt StandIn.jwt StandIn.env
                    StandIn.anaWorld) "ana@x.com" "secret123").
    reflexivity.
  - apply (proj2 (reads_do_not_write StandIn.bcrypt StandIn.jwt StandIn.env
                    StandIn.anaWorld) (Some 1)).
    reflexivity.
Defined.

(* ------------------------------------------------------------------------- *)
(** ** Every way a registration can end *)





(* ------------------------------------------------------------------------- *)
(** ** Further properties of the gate and of the protected route *)

Lemma split_before_space (t rest : string) :
  Js.hasSpace t = false ->
  Js.split (t ++ String " " rest) = t :: Js.split rest.
Proof.
  induction t as [|c r IH]; cbn [Js.hasSpace append Js.split]; intros H.
  - reflexivity.
  - apply orb_false_iff in H. destruct H as [Hc Hr].
    rewrite Hc, (IH Hr). reflexivity.
Qed.

(** X10.  Only the first two space-separated parts of the header count: whatever
    follows a second space after the token is ignored, and the request is
    treated exactly as if the header ended with the token. *)
Theorem gate_ignores_trailing_parts
  (jwt : Jwt.Lib) (env : ProcessEnv.t) (t rest : string) (w : World) :
  t <> EmptyString -> Js.hasSpace t = false ->
  authMiddleware jwt env (Some ("Bearer " ++ t ++ String " " rest)) w
  = authMiddleware jwt env (Some ("Bearer " ++ t)) w.
Proof.
  intros Ht Hs.
  destruct (bearer_header_well_formed Ht Hs) as [W B].
  assert (W' : ~ malformedHeader (Some ("Bearer " ++ t ++ String " " rest))
               /\ bearerToken (Some ("Bearer " ++ t ++ String " " rest)) = t).
  { cbn [malformedHeader bearerToken].
    rewrite split_Bearer, (@split_before_space t rest Hs). cbn [hd nth].
    split; [|reflexivity]. intros [H|H]; [now apply H|contradiction]. }
  destruct W' as [W' B'].
  rewrite !authMiddleware_well_formed by assumption. now rewrite B, B'.
Qed.

Lemma gate_ignores_trailing_parts_witness :
  authMiddleware StandIn.jwt StandIn.env (Some "Bearer abc def ghi")
    StandIn.anaWorld
  = authMiddleware StandIn.jwt StandIn.env (Some "Bearer abc") StandIn.anaWorld.
Proof.
  apply (@gate_ignores_trailing_parts StandIn.jwt StandIn.env "abc" "def ghi"
           StandIn.anaWorld); [discriminate|reflexivity].
Defined.

(** X11.  The gate never throws, whatever [jwt.verify] does; it sends no
    statement to the database, does not wait for I/O, and leaves the table,
    the serial, the clock and the random source as they were: its only
    trace is at most one call to [jwt.verify]. *)
Theorem gate_is_stateless
  (jwt : Jwt.Lib) (env : ProcessEnv.t) (a : option string) (w : World) :
  (exists g, fst (authMiddleware jwt env a w) = Return g) /\
  users (snd (authMiddleware jwt env a w)) = users w /\
  nextId (snd (authMiddleware jwt env a w)) = nextId w /\
  clock (snd (authMiddleware jwt env a w)) = clock w /\
  entropy (snd (authMiddleware jwt env a w)) = entropy w /\
  others (snd (authMiddleware jwt env a w)) = others w /\
  queries (trace (snd (authMiddleware jwt env a w))) = queries (trace w) /\
  (trace (snd (authMiddleware jwt env a w)) = trace w \/
   trace (snd (authMiddleware jwt env a w))
   = EvVerify (bearerToken a) (ProcessEnv.JWT_SECRET env) :: trace w).
Proof.
  destruct (malformedHeader_dec a) as [Hm|Hw].
  - rewrite authMiddleware_malformed by assumption. cbn [fst snd].
    repeat split; eauto.
  - rewrite authMiddleware_well_formed by assumption. cbn [fst snd].
    split; [destruct (Jwt.verify jwt _ _ _); eauto|]. repeat split; auto.
Qed.

Section RouteFacts.

Variable jwt : Jwt.Lib.
Variable env : ProcessEnv.t.

Lemma meRoute_run (a : option string) (w : World) :
  meRoute jwt env a w =
  match authMiddleware jwt env a w with
  | (Return (Responded r), w1) => (Return r, w1)
  | (Return (Next requser), w1) => me requser w1
  | (Throw err, w1) => (Throw err, w1)
  end.
Proof.
  unfold meRoute, bind.
  destruct (authMiddleware jwt env a w) as [[[r|u]|err] w1]; reflexivity.
Qed.

Lemma users_waited_logged (ev : Event) (w : World) :
  users (waited (logged ev w)) = users (waited w).
Proof. now apply waited_same. Qed.

End RouteFacts.

(** X12.  What [me] answers is decided by the table as its lookup finds it: 404
    "Usuario no encontrado" when no row has the id, and otherwise 200 with
    the view of the oldest row with that id. *)
Theorem profile_found_or_not (requser : ReqUser.t) (w : World) :
  (existsb (idOf (ReqUser.id requser)) (users (waited w)) = false ->
   fst (me requser w)
   = Return {| status := 404; body := messageBody "Usuario no encontrado" |}) /\
  (forall row : Row,
     hd_error (filter (idOf (ReqUser.id requser)) (users (waited w))) = Some row ->
     fst (me requser w)
     = Return {| status := 200; body := accountView (mapRow row) |}).
Proof.
  split.
  - intros H. rewrite me_run, getProfile_bind, findById_run.
    rewrite (filter_none _ _ H). reflexivity.
  - intros row H. rewrite me_run, getProfile_bind, findById_run, H.
    reflexivity.
Qed.

Lemma profile_found_or_not_witness :
  fst (me {| ReqUser.id := Some 7; ReqUser.email := None |} StandIn.anaWorld)
  = Return {| status := 404; body := messageBody "Usuario no encontrado" |} /\
  fst (me {| ReqUser.id := Some 1; ReqUser.email := None |} StandIn.anaWorld)
  = Return {| status := 200;
              body := Js.JObj [("id", Js.JNum 1); ("name", Js.JStr "Ana");
                               ("email", Js.JStr "ana@x.com");
                               ("createdAt", Js.JNum 5000)] |}.
Proof.
  split.
  - apply (profile_found_or_not
             {| ReqUser.id := Some 7; ReqUser.email := None |} StandIn.anaWorld).
    reflexivity.
  - apply (proj2 (profile_found_or_not
                    {| ReqUser.id := Some 1; ReqUser.email := None |}
                    StandIn.anaWorld)
             {| id := 1; name := "Ana"; email := "ana@x.com";
                password_hash := "00000000secret123"; created_at := 5000 |}).
    reflexivity.
Defined.

(** X13.  The route [GET /me].  A request whose header is malformed or whose token
    [jwt.verify] refuses is answered 401 by the gate and never reaches the
    handler: no statement is sent to the database.  A request whose token
    verifies reaches the handler with the payload's subject as id, and is
    answered with the view of the account with that id. *)
Theorem me_route_is_guarded
  (jwt : Jwt.Lib) (env : ProcessEnv.t) (a : option string) (w : World) :
  (malformedHeader a \/
   (exists err,
      Jwt.verify jwt (bearerToken a) (ProcessEnv.JWT_SECRET env) (clock w)
      = Throw err) ->
   exists r,
     fst (meRoute jwt env a w) = Return r /\ status r = 401 /\
     queries (trace (snd (meRoute jwt env a w))) = queries (trace w) /\
     users (snd (meRoute jwt env a w)) = users w) /\
  (forall (payload : Jwt.Payload) (row : Row),
     ~ malformedHeader a ->
     Jwt.verify jwt (bearerToken a) (ProcessEnv.JWT_SECRET env) (clock w)
     = Return payload ->
     hd_error (filter (idOf (Jwt.sub payload)) (users (waited w))) = Some row ->
     fst (meRoute jwt env a w)
     = Return {| status := 200; body := accountView (mapRow row) |}).
Proof.
  split.
  - intros H. rewrite meRoute_run.
    destruct (malformedHeader_dec a) as [Hm|Hw].
    + rewrite authMiddleware_malformed by assumption.
      exists noAutorizado. repeat split.
    + destruct H as [Hm|[err Herr]]; [contradiction|].
      rewrite authMiddleware_well_formed, Herr by assumption.
      exists tokenInvalido. repeat split.
  - intros payload row Hw Hv Hrow. rewrite meRoute_run.
    rewrite authMiddleware_well_formed, Hv by assumption.
    rewrite me_run, getProfile_bind, findById_run. cbn [ReqUser.id].
    rewrite users_waited_logged, Hrow. reflexivity.
Qed.

Lemma me_route_is_guarded_witness :
  (exists r,
     fst (meRoute StandIn.jwt StandIn.env (Some "Bearer abc") StandIn.anaWorld)
     = Return r /\ status r = 401) /\
  queries (trace (snd (meRoute StandIn.jwt StandIn.env (Some "Bearer abc")
                         StandIn.anaWorld))) = [].
Proof.
  destruct (proj1 (me_route_is_guarded StandIn.jwt StandIn.env
                     (Some "Bearer abc") StandIn.anaWorld))
    as (r & H1 & H2 & H3 & _).
  - right. eexists. reflexivity.
  - split; [exists r; split; assumption|exact H3].
Defined.

(* ------------------------------------------------------------------------- *)
(** ** Categories *)

Section CategoryRuns.

Variable D : Cat.Database.

Lemma cat_query_run (q : Cat.Sql) (w : Cat.World D) :
  Cat.query q w
  = (fst (Cat.exec D q (Cat.db w)),
     Cat.mkWorld (snd (Cat.exec D q (Cat.db w))) (Cat.clock w)
       (q :: Cat.trace w)).
Proof. unfold Cat.query. now destruct (Cat.exec D q (Cat.db w)). Qed.

Lemma category_new_run (o : Cat.Mapped) (w : Cat.World D) :
  CategoryModel.new o w
  = (Return {| Cat.category_id := Cat.mapped_id o;
               Cat.category_name := Cat.mapped_name o;
               Cat.category_description := Cat.mapped_description o;
               Cat.category_createdAt := Cat.clock w |}, w).
Proof. reflexivity. Qed.

Lemma category_new_all (rows : list Cat.Row) (w : Cat.World D) :
  Cat.mapM CategoryModel.new (map CategoryRepository.mapRow rows) w
  = (Return (map (categoryAt (Cat.clock w)) rows), w).
Proof.
  induction rows as [|r rows IH]; [reflexivity|].
  cbn [map Cat.mapM]. unfold Cat.bind at 1. rewrite category_new_run.
  unfold Cat.bind at 1. rewrite IH. reflexivity.
Qed.

(** A lookup by id or by name answers [null] for no row and the first row
    otherwise. *)
Lemma cat_find_run (q : Cat.Sql) (w : Cat.World D) :
  (result <~ Cat.query q ;;
   if Nat.eqb (List.length result) 0 then Cat.ret None
   else o <~ CategoryRepository.firstRow result ;; Cat.ret (Some o)) w
  = (match fst (Cat.exec D q (Cat.db w)) with
     | Return rows => Return (option_map CategoryRepository.mapRow (hd_error rows))
     | Throw err => Throw err
     end,
     Cat.mkWorld (snd (Cat.exec D q (Cat.db w))) (Cat.clock w)
       (q :: Cat.trace w)).
Proof.
  unfold Cat.bind at 1. rewrite cat_query_run.
  destruct (fst (Cat.exec D q (Cat.db w))) as [[|r rows]|err]; reflexivity.
Qed.

(** An insert or update answers the first returned row, and throws a
    [TypeError] when no row is returned. *)
Lemma cat_write_run (q : Cat.Sql) (w : Cat.World D) :
  (result <~ Cat.query q ;; CategoryRepository.firstRow result) w
  = (match fst (Cat.exec D q (Cat.db w)) with
     | Return (r :: _) => Return (CategoryRepository.mapRow r)
     | Return [] => Throw typeError
     | Throw err => Throw err
     end,
     Cat.mkWorld (snd (Cat.exec D q (Cat.db w))) (Cat.clock w)
       (q :: Cat.trace w)).
Proof.
  unfold Cat.bind at 1. rewrite cat_query_run.
  destruct (fst (Cat.exec D q (Cat.db w))) as [[|r rows]|err]; reflexivity.
Qed.

Lemma service_register_run (n d : Cat.Param) (w : Cat.World D) :
  CategoryService.registerCategory n d w =
  let w1 := Cat.mkWorld (snd (Cat.exec D (Cat.SelectByName n) (Cat.db w)))
              (Cat.clock w) (Cat.SelectByName n :: Cat.trace w) in
  let w2 := Cat.mkWorld (snd (Cat.exec D (Cat.InsertCategory n d) (Cat.db w1)))
              (Cat.clock w)
              (Cat.InsertCategory n d :: Cat.SelectByName n :: Cat.trace w) in
  match fst (Cat.exec D (Cat.SelectByName n) (Cat.db w)) with
  | Return (_ :: _) => (Throw CategoryService.alreadyExists, w1)
  | Return [] =>
      match fst (Cat.exec D (Cat.InsertCategory n d) (Cat.db w1)) with
      | Return (r :: _) => (Return (categoryAt (Cat.clock w) r), w2)
      | Return [] => (Throw typeError, w2)
      | Throw err => (Throw err, w2)
      end
  | Throw err => (Throw err, w1)
  end.
Proof.
  unfold CategoryService.registerCategory, CategoryRepository.findCategoryByName,
    CategoryRepository.registerCategory.
  unfold Cat.bind at 1. rewrite cat_find_run. cbv zeta.
  destruct (fst (Cat.exec D (Cat.SelectByName n) (Cat.db w)))
    as [[|r0 rows0]|err]; try reflexivity.
  cbn [hd_error option_map]. unfold Cat.bind at 1. rewrite cat_write_run.
  cbn [Cat.db Cat.clock Cat.trace].
  destruct (fst (Cat.exec D (Cat.InsertCategory n d) _)) as [[|r rows]|err];
    reflexivity.
Qed.

Lemma service_update_run (i n d : Cat.Param) (w : Cat.World D) :
  CategoryService.updateCategory i n d w =
  let w1 := Cat.mkWorld (snd (Cat.exec D (Cat.SelectById i) (Cat.db w)))
              (Cat.clock w) (Cat.SelectById i :: Cat.trace w) in
  let w2 := Cat.mkWorld (snd (Cat.exec D (Cat.UpdateCategory n d i) (Cat.db w1)))
              (Cat.clock w)
              (Cat.UpdateCategory n d i :: Cat.SelectById i :: Cat.trace w) in
  match fst (Cat.exec D (Cat.SelectById i) (Cat.db w)) with
  | Return [] => (Throw CategoryService.doesNotExist, w1)
  | Return (_ :: _) =>
      match fst (Cat.exec D (Cat.UpdateCategory n d i) (Cat.db w1)) with
      | Return (r :: _) => (Return (categoryAt (Cat.clock w) r), w2)
      | Return [] => (Throw typeError, w2)
      | Throw err => (Throw err, w2)
      end
  | Throw err => (Throw err, w1)
  end.
Proof.
  unfold CategoryService.updateCategory, CategoryRepository.findCategoryById,
    CategoryRepository.updateCategory.
  unfold Cat.bind at 1. rewrite cat_find_run. cbv zeta.
  destruct (fst (Cat.exec D (Cat.SelectById i) (Cat.db w)))
    as [[|r0 rows0]|err]; try reflexivity.
  cbn [hd_error option_map]. unfold Cat.bind at 1. rewrite cat_write_run.
  cbn [Cat.db Cat.clock Cat.trace].
  destruct (fst (Cat.exec D (Cat.UpdateCategory n d i) _)) as [[|r rows]|err];
    reflexivity.
Qed.

Lemma service_find_run (i : Cat.Param) (w : Cat.World D) :
  CategoryService.findCategoryById i w =
  (match fst (Cat.exec D (Cat.SelectById i) (Cat.db w)) with
   | Return rows => Return (option_map (categoryAt (Cat.clock w)) (hd_error rows))
   | Throw err => Throw err
   end,
   Cat.mkWorld (snd (Cat.exec D (Cat.SelectById i) (Cat.db w))) (Cat.clock w)
     (Cat.SelectById i :: Cat.trace w)).
Proof.
  unfold CategoryService.findCategoryById, CategoryRepository.findCategoryById.
  unfold Cat.bind at 1. rewrite cat_find_run.
  destruct (fst (Cat.exec D (Cat.SelectById i) (Cat.db w)))
    as [[|r0 rows0]|err]; reflexivity.
Qed.

Lemma service_all_run (w : Cat.World D) :
  CategoryService.allCategories w =
  (match fst (Cat.exec D Cat.SelectAll (Cat.db w)) with
   | Return rows => Return (map (categoryAt (Cat.clock w)) rows)
   | Throw err => Throw err
   end,
   Cat.mkWorld (snd (Cat.exec D Cat.SelectAll (Cat.db w))) (Cat.clock w)
     (Cat.SelectAll :: Cat.trace w)).
Proof.
  unfold CategoryService.allCategories, CategoryRepository.allCategories.
  unfold Cat.bind at 1. unfold Cat.bind at 1. rewrite cat_query_run.
  destruct (fst (Cat.exec D Cat.SelectAll (Cat.db w))) as [rows|err];
    [|reflexivity].
  cbn [Cat.ret]. rewrite category_new_all. reflexivity.
Qed.

End CategoryRuns.

Section CategoryHandlers.

Variable D : Cat.Database.

Lemma controller_register_run (n d : Cat.Param) (w : Cat.World D) :
  CategoryController.registerCategory n d w =
  match CategoryService.registerCategory n d w with
  | (Return c, w') =>
      (Return {| Cat.status := 201; Cat.body := Cat.SentCategory c |}, w')
  | (Throw err, w') => (Return (CategoryController.errorResponse err), w')
  end.
Proof.
  unfold CategoryController.registerCategory, Cat.tryCatch, Cat.bind.
  destruct (CategoryService.registerCategory n d w) as [[c|err] w']; reflexivity.
Qed.

Lemma controller_update_run (i n d : Cat.Param) (w : Cat.World D) :
  CategoryController.updateCategory i n d w =
  match CategoryService.updateCategory i n d w with
  | (Return c, w') =>
      (Return {| Cat.status := 200; Cat.body := Cat.SentCategory c |}, w')
  | (Throw err, w') => (Return (CategoryController.errorResponse err), w')
  end.
Proof.
  unfold CategoryController.updateCategory, Cat.tryCatch, Cat.bind.
  destruct (CategoryService.updateCategory i n d w) as [[c|err] w']; reflexivity.
Qed.

Lemma controller_find_run (i : string) (w : Cat.World D) :
  CategoryController.findCategoryById i w =
  match CategoryService.findCategoryById (Cat.Text i) w with
  | (Return (Some c), w') =>
      (Return {| Cat.status := 200; Cat.body := Cat.SentCategory c |}, w')
  | (Return None, w') =>
      (Return {| Cat.status := 404;
                 Cat.body := Cat.SentMessage "Categoría no encontrada" |}, w')
  | (Throw err, w') => (Return (CategoryController.errorResponse err), w')
  end.
Proof.
  unfold CategoryController.findCategoryById, Cat.tryCatch, Cat.bind.
  destruct (CategoryService.findCategoryById (Cat.Text i) w)
    as [[[c|]|err] w']; reflexivity.
Qed.

Lemma controller_all_run (w : Cat.World D) :
  CategoryController.allCategories w =
  match CategoryService.allCategories w with
  | (Return l, w') =>
      (Return {| Cat.status := 200; Cat.body := Cat.SentCategories l |}, w')
  | (Throw err, w') => (Return (CategoryController.errorResponse err), w')
  end.
Proof.
  unfold CategoryController.allCategories, Cat.tryCatch, Cat.bind.
  destruct (CategoryService.allCategories w) as [[l|err] w']; reflexivity.
Qed.

End CategoryHandlers.

(** X15.  Registering a category.  When the lookup by name returns a row, the
    answer is 409 "La categoría ya existe" and the lookup is the only
    statement sent: no INSERT.  When it returns none and the INSERT returns
    a row, the answer is 201 with that row's id, name and description. *)
Theorem category_register
  (D : Cat.Database) (n d : Cat.Param) (w : Cat.World D) :
  (forall (r : Cat.Row) (rs : list Cat.Row),
     fst (Cat.exec D (Cat.SelectByName n) (Cat.db w)) = Return (r :: rs) ->
     fst (CategoryController.registerCategory n d w)
     = Return {| Cat.status := 409;
                 Cat.body := Cat.SentMessage "La categoría ya existe" |} /\
     Cat.trace (snd (CategoryController.registerCategory n d w))
     = Cat.SelectByName n :: Cat.trace w) /\
  (forall (r : Cat.Row) (rs : list Cat.Row),
     fst (Cat.exec D (Cat.SelectByName n) (Cat.db w)) = Return [] ->
     fst (Cat.exec D (Cat.InsertCategory n d)
            (snd (Cat.exec D (Cat.SelectByName n) (Cat.db w))))
     = Return (r :: rs) ->
     fst (CategoryController.registerCategory n d w)
     = Return {| Cat.status := 201;
                 Cat.body := Cat.SentCategory (categoryAt (Cat.clock w) r) |} /\
     Cat.trace (snd (CategoryController.registerCategory n d w))
     = Cat.InsertCategory n d :: Cat.SelectByName n :: Cat.trace w).
Proof.
  split; intros r rs.
  - intros Hsel. rewrite controller_register_run, service_register_run.
    cbv zeta. rewrite Hsel. split; reflexivity.
  - intros Hsel Hins. rewrite controller_register_run, service_register_run.
    cbv zeta. rewrite Hsel. cbn [Cat.db]. rewrite Hins. split; reflexivity.
Qed.

Lemma category_register_witness :
  fst (CategoryController.registerCategory (Cat.Text "Books") (Cat.Text "Again")
         CategoryStandIn.shelf)
  = Return {| Cat.status := 409;
              Cat.body := Cat.SentMessage "La categoría ya existe" |} /\
  fst (CategoryController.registerCategory (Cat.Text "Toys") (Cat.Text "Wooden")
         CategoryStandIn.shelf)
  = Return {| Cat.status := 201;
              Cat.body := Cat.SentCategory
                {| Cat.category_id := 2; Cat.category_name := "Toys";
                   Cat.category_description := "Wooden";
                   Cat.category_createdAt := 9000 |} |}.
Proof.
  split.
  - apply (proj1 (category_register (Cat.Text "Books") (Cat.Text "Again")
                    CategoryStandIn.shelf) CategoryStandIn.books []).
    reflexivity.
  - apply (proj2 (category_register (Cat.Text "Toys") (Cat.Text "Wooden")
                    CategoryStandIn.shelf)
             {| Cat.id := 2; Cat.name := "Toys"; Cat.description := "Wooden";
                Cat.created_at := 0 |} []); reflexivity.
Defined.

(** X16.  Updating a category.  When the lookup by id returns no row, the answer
    is 404 "La categoría no existe" and no UPDATE is sent.  When it returns
    one and the UPDATE returns a row, the answer is 200 with the returned
    row's id, name and description; the name is not looked up, so no
    check against other categories' names is made.  When the UPDATE returns
    no row, reading [rows[0]] throws and the answer is 500 with the
    [TypeError]'s message. *)
Theorem category_update
  (D : Cat.Database) (i n d : Cat.Param) (w : Cat.World D) :
  (fst (Cat.exec D (Cat.SelectById i) (Cat.db w)) = Return [] ->
   fst (CategoryController.updateCategory i n d w)
   = Return {| Cat.status := 404;
               Cat.body := Cat.SentMessage "La categoría no existe" |} /\
   Cat.trace (snd (CategoryController.updateCategory i n d w))
   = Cat.SelectById i :: Cat.trace w) /\
  (forall (r0 : Cat.Row) (rs0 : list Cat.Row),
     fst (Cat.exec D (Cat.SelectById i) (Cat.db w)) = Return (r0 :: rs0) ->
     Cat.trace (snd (CategoryController.updateCategory i n d w))
     = Cat.UpdateCategory n d i :: Cat.SelectById i :: Cat.trace w /\
     (forall (r : Cat.Row) (rs : list Cat.Row),
        fst (Cat.exec D (Cat.UpdateCategory n d i)
               (snd (Cat.exec D (Cat.SelectById i) (Cat.db w))))
        = Return (r :: rs) ->
        fst (CategoryController.updateCategory i n d w)
        = Return {| Cat.status := 200;
                    Cat.body := Cat.SentCategory (categoryAt (Cat.clock w) r) |}) /\
     (fst (Cat.exec D (Cat.UpdateCategory n d i)
             (snd (Cat.exec D (Cat.SelectById i) (Cat.db w))))
      = Return [] ->
      fst (CategoryController.updateCategory i n d w)
      = Return {| Cat.status := 500;
                  Cat.body := Cat.SentMessage (Js.message typeError) |})).
Proof.
  split.
  - intros Hsel. rewrite controller_update_run, service_update_run.
    cbv zeta. rewrite Hsel. split; reflexivity.
  - intros r0 rs0 Hsel. rewrite controller_update_run, service_update_run.
    cbv zeta. rewrite Hsel. cbn [Cat.db]. split; [|split].
    + destruct (fst (Cat.exec D (Cat.UpdateCategory n d i) _))
        as [[|r rs]|err]; reflexivity.
    + intros r rs Hup. rewrite Hup. reflexivity.
    + intros Hup. rewrite Hup. reflexivity.
Qed.

Lemma category_update_witness :
  fst (CategoryController.updateCategory (Cat.Number 5) (Cat.Text "Maps")
         (Cat.Text "Folded") CategoryStandIn.shelf)
  = Return {| Cat.status := 404;
              Cat.body := Cat.SentMessage "La categoría no existe" |} /\
  fst (CategoryController.updateCategory (Cat.Number 1) (Cat.Text "Maps")
         (Cat.Text "Folded") CategoryStandIn.shelf)
  = Return {| Cat.status := 200;
              Cat.body := Cat.SentCategory
                {| Cat.category_id := 1; Cat.category_name := "Maps";
                   Cat.category_description := "Folded";
                   Cat.category_createdAt := 9000 |} |} /\
  fst (CategoryController.updateCategory (Cat.Number 1) (Cat.Text "Maps")
         (Cat.Text "Folded") CategoryStandIn.leakyShelf)
  = Return {| Cat.status := 500;
              Cat.body := Cat.SentMessage (Js.message typeError) |}.
Proof.
  split; [|split].
  - apply (category_update (Cat.Number 5) (Cat.Text "Maps") (Cat.Text "Folded")
             CategoryStandIn.shelf). reflexivity.
  - apply (proj1 (proj2 (proj2 (category_update (Cat.Number 1) (Cat.Text "Maps")
                                  (Cat.Text "Folded") CategoryStandIn.shelf)
                           CategoryStandIn.books [] eq_refl))
             {| Cat.id := 1; Cat.name := "Maps"; Cat.description := "Folded";
                Cat.created_at := 100 |} []).
    reflexivity.
  - apply (proj2 (proj2 (proj2 (category_update (Cat.Number 1) (Cat.Text "Maps")
                                  (Cat.Text "Folded") CategoryStandIn.leakyShelf)
                           CategoryStandIn.books [] eq_refl))).
    reflexivity.
Defined.

(** X17.  Finding a category by the id in the path: 404 "Categoría no encontrada"
    when the lookup returns no row, and otherwise 200 with the first row's
    id, name and description. *)
Theorem category_find
  (D : Cat.Database) (i : string) (w : Cat.World D) :
  (fst (Cat.exec D (Cat.SelectById (Cat.Text i)) (Cat.db w)) = Return [] ->
   fst (CategoryController.findCategoryById i w)
   = Return {| Cat.status := 404;
               Cat.body := Cat.SentMessage "Categoría no encontrada" |}) /\
  (forall (r : Cat.Row) (rs : list Cat.Row),
     fst (Cat.exec D (Cat.SelectById (Cat.Text i)) (Cat.db w)) = Return (r :: rs) ->
     fst (CategoryController.findCategoryById i w)
     = Return {| Cat.status := 200;
                 Cat.body := Cat.SentCategory (categoryAt (Cat.clock w) r) |}).
Proof.
  split.
  - intros Hsel. rewrite controller_find_run, service_find_run, Hsel.
    reflexivity.
  - intros r rs Hsel. rewrite controller_find_run, service_find_run, Hsel.
    reflexivity.
Qed.

Lemma category_find_witness :
  fst (CategoryController.findCategoryById "7" CategoryStandIn.shelf)
  = Return {| Cat.status := 404;
              Cat.body := Cat.SentMessage "Categoría no encontrada" |} /\
  fst (CategoryController.findCategoryById "1" CategoryStandIn.shelf)
  = Return {| Cat.status := 200;
              Cat.body := Cat.SentCategory
                {| Cat.category_id := 1; Cat.category_name := "Books";
                   Cat.category_description := "Printed";
                   Cat.category_createdAt := 9000 |} |}.
Proof.
  split.
  - apply (category_find "7" CategoryStandIn.shelf). reflexivity.
  - apply (proj2 (category_find "1" CategoryStandIn.shelf)
             CategoryStandIn.books []).
    reflexivity.
Defined.

(** X18.  Listing the categories: 200 with one category per row returned, in the
    order of the rows, each with the row's id, name and description. *)
Theorem category_list
  (D : Cat.Database) (w : Cat.World D) (rows : list Cat.Row) :
  fst (Cat.exec D Cat.SelectAll (Cat.db w)) = Return rows ->
  fst (CategoryController.allCategories w)
  = Return {| Cat.status := 200;
              Cat.body := Cat.SentCategories
                            (map (categoryAt (Cat.clock w)) rows) |} /\
  Cat.trace (snd (CategoryController.allCategories w))
  = Cat.SelectAll :: Cat.trace w.
Proof.
  intros Hsel. rewrite controller_all_run, service_all_run, Hsel.
  split; reflexivity.
Qed.

Lemma category_list_witness :
  fst (CategoryController.allCategories CategoryStandIn.shelf)
  = Return {| Cat.status := 200;
              Cat.body := Cat.SentCategories
                [{| Cat.category_id := 1; Cat.category_name := "Books";
                    Cat.category_description := "Printed";
                    Cat.category_createdAt := 9000 |}] |}.
Proof.
  apply (@category_list CategoryStandIn.database CategoryStandIn.shelf
           [CategoryStandIn.books]).
  reflexivity.
Defined.

(** X19.  The creation time a client reads is the time of its request: every
    category sent by any of the four handlers has [createdAt] equal to the
    clock at the request, whatever [created_at] the database returned. *)
Theorem category_createdAt_is_request_time
  (D : Cat.Database) (w : Cat.World D) (resp : Cat.Response) :
  (exists n d, fst (CategoryController.registerCategory n d w) = Return resp)
  \/ (exists i n d, fst (CategoryController.updateCategory i n d w) = Return resp)
  \/ (exists i, fst (CategoryController.findCategoryById i w) = Return resp)
  \/ fst (CategoryController.allCategories w) = Return resp ->
  Forall (fun c => Cat.category_createdAt c = Cat.clock w)
    (categoriesOf (Cat.body resp)).
Proof.
  intros [(n & d & H)|[(i & n & d & H)|[(i & H)|H]]].
  - rewrite controller_register_run, service_register_run in H. cbv zeta in H.
    destruct (fst (Cat.exec D (Cat.SelectByName n) _)) as [[|r0 rs0]|err];
      [destruct (fst (Cat.exec D (Cat.InsertCategory n d) _))
         as [[|r rs]|err]| |];
      injection H as <-; repeat constructor.
  - rewrite controller_update_run, service_update_run in H. cbv zeta in H.
    destruct (fst (Cat.exec D (Cat.SelectById i) _)) as [[|r0 rs0]|err];
      [|destruct (fst (Cat.exec D (Cat.UpdateCategory n d i) _))
          as [[|r rs]|err]|];
      injection H as <-; repeat constructor.
  - rewrite controller_find_run, service_find_run in H.
    destruct (fst (Cat.exec D (Cat.SelectById (Cat.Text i)) _))
      as [[|r0 rs0]|err]; injection H as <-; repeat constructor.
  - rewrite controller_all_run, service_all_run in H.
    destruct (fst (Cat.exec D Cat.SelectAll _)) as [rows|err];
      injection H as <-; [|constructor].
    cbn. apply Forall_forall. intros c Hc. apply in_map_iff in Hc.
    destruct Hc as (r & <- & _). reflexivity.
Qed.

Lemma category_createdAt_is_request_time_witness :
  Forall (fun c => Cat.category_createdAt c = 9000)
    (categoriesOf
       (Cat.SentCategories
          [{| Cat.category_id := 1; Cat.category_name := "Books";
              Cat.category_description := "Printed";
              Cat.category_createdAt := 9000 |}])) /\
  Cat.created_at CategoryStandIn.books = 100.
Proof.
  split; [|reflexivity].
  apply (@category_createdAt_is_request_time CategoryStandIn.database
           CategoryStandIn.shelf
           {| Cat.status := 200;
              Cat.body := Cat.SentCategories
                [{| Cat.category_id := 1; Cat.category_name := "Books";
                    Cat.category_description := "Printed";
                    Cat.category_createdAt := 9000 |}] |}).
  right. right. right. reflexivity.
Defined.



(* ------------------------------------------------------------------------- *)
(** ** What the gate does not check *)

(** X14.  The gate looks at nothing in a verified payload: whenever [jwt.verify]
    returns, the request goes on, with [req.user.id] and [req.user.email]
    copied from the payload's [sub] and [email] even when the payload lacks
    them; such a request to [GET /me] then runs the profile lookup with an
    undefined id. *)
Theorem gate_accepts_any_verified_payload
  (jwt : Jwt.Lib) (env : ProcessEnv.t) (a : option string) (w : World)
  (payload : Jwt.Payload) :
  ~ malformedHeader a ->
  Jwt.verify jwt (bearerToken a) (ProcessEnv.JWT_SECRET env) (clock w)
  = Return payload ->
  fst (authMiddleware jwt env a w)
  = Return (Next {| ReqUser.id := Jwt.sub payload;
                    ReqUser.email := Jwt.email payload |}) /\
  meRoute jwt env a w
  = me {| ReqUser.id := Jwt.sub payload; ReqUser.email := Jwt.email payload |}
      (logged (EvVerify (bearerToken a) (ProcessEnv.JWT_SECRET env)) w).
Proof.
  intros Hw Hv. rewrite meRoute_run.
  rewrite authMiddleware_well_formed, Hv by assumption. split; reflexivity.
Qed.

Lemma gate_accepts_any_verified_payload_witness :
  fst (authMiddleware BareStandIn.jwt StandIn.env (Some "Bearer anything")
         StandIn.anaWorld)
  = Return (Next {| ReqUser.id := None; ReqUser.email := None |}) /\
  queries (trace (snd (meRoute BareStandIn.jwt StandIn.env
                         (Some "Bearer anything") StandIn.anaWorld)))
  = [SelectById None].
Proof.
  assert (W : ~ malformedHeader (Some "Bearer anything")).
  { intros [H|H]; [now apply H|discriminate]. }
  destruct (@gate_accepts_any_verified_payload BareStandIn.jwt StandIn.env
              (Some "Bearer anything") StandIn.anaWorld
              {| Jwt.sub := None; Jwt.email := None; Jwt.iat := 0; Jwt.exp := 0 |}
              W eq_refl) as [H1 H2].
  split; [exact H1|]. rewrite H2. reflexivity.
Defined.
